(** * bcrypt-cache: the caching core and its two storage backends

    A shallow embedding of [lib/bcrypt-cache.js] (the caching core),
    [lib/memory-cache.js] (the in-process backend) and [lib/redis-cache.js]
    (the networked backend), followed by the properties of the
    specification that concern them. *)

From Stdlib Require Import ZArith List Ascii String DecimalString Lia.
From stdpp Require Import gmap strings.

Local Open Scope string_scope.
Local Open Scope Z_scope.

(** ** The digest utility *)

Module MD5.

(** MD5 (RFC 1321) on 32-bit words held in [Z], over the bytes of the
    string; the strings that reach it here (tokens, bcrypt hashes, digests)
    are ASCII. *)

Definition mask32 (x : Z) : Z := Z.land x 0xffffffff.

Definition add32 (x y : Z) : Z := mask32 (x + y).

Definition not32 (x : Z) : Z := Z.lxor x 0xffffffff.

Definition rotl32 (x : Z) (n : Z) : Z :=
  Z.lor (mask32 (Z.shiftl x n)) (Z.shiftr x (32 - n)).

(** The sine table, [floor (2^32 * abs (sin (i + 1)))]. *)
Definition K : list Z :=
  [ 0xd76aa478; 0xe8c7b756; 0x242070db; 0xc1bdceee;
    0xf57c0faf; 0x4787c62a; 0xa8304613; 0xfd469501;
    0x698098d8; 0x8b44f7af; 0xffff5bb1; 0x895cd7be;
    0x6b901122; 0xfd987193; 0xa679438e; 0x49b40821;
    0xf61e2562; 0xc040b340; 0x265e5a51; 0xe9b6c7aa;
    0xd62f105d; 0x02441453; 0xd8a1e681; 0xe7d3fbc8;
    0x21e1cde6; 0xc33707d6; 0xf4d50d87; 0x455a14ed;
    0xa9e3e905; 0xfcefa3f8; 0x676f02d9; 0x8d2a4c8a;
    0xfffa3942; 0x8771f681; 0x6d9d6122; 0xfde5380c;
    0xa4beea44; 0x4bdecfa9; 0xf6bb4b60; 0xbebfbc70;
    0x289b7ec6; 0xeaa127fa; 0xd4ef3085; 0x04881d05;
    0xd9d4d039; 0xe6db99e5; 0x1fa27cf8; 0xc4ac5665;
    0xf4292244; 0x432aff97; 0xab9423a7; 0xfc93a039;
    0x655b59c3; 0x8f0ccc92; 0xffeff47d; 0x85845dd1;
    0x6fa87e4f; 0xfe2ce6e0; 0xa3014314; 0x4e0811a1;
    0xf7537e82; 0xbd3af235; 0x2ad7d2bb; 0xeb86d391 ].

(** Per-round left-rotation amounts. *)
Definition S : list Z :=
  [ 7; 12; 17; 22; 7; 12; 17; 22; 7; 12; 17; 22; 7; 12; 17; 22;
    5; 9; 14; 20; 5; 9; 14; 20; 5; 9; 14; 20; 5; 9; 14; 20;
    4; 11; 16; 23; 4; 11; 16; 23; 4; 11; 16; 23; 4; 11; 16; 23;
    6; 10; 15; 21; 6; 10; 15; 21; 6; 10; 15; 21; 6; 10; 15; 21 ].

Record state := State { sa : Z; sb : Z; sc : Z; sd : Z }.

Definition init : state :=
  State 0x67452301 0xefcdab89 0x98badcfe 0x10325476.

Definition mix (i : Z) (b c d : Z) : Z :=
  if i <? 16 then Z.lor (Z.land b c) (Z.land (not32 b) d)
  else if i <? 32 then Z.lor (Z.land d b) (Z.land (not32 d) c)
  else if i <? 48 then Z.lxor b (Z.lxor c d)
  else Z.lxor c (Z.lor b (not32 d)).

Definition word_index (i : Z) : Z :=
  if i <? 16 then i
  else if i <? 32 then (5 * i + 1) mod 16
  else if i <? 48 then (3 * i + 5) mod 16
  else (7 * i) mod 16.

Definition zth (l : list Z) (i : Z) : Z := nth (Z.to_nat i) l 0.

Definition round (m : list Z) (st : state) (i : Z) : state :=
  let f := add32 (add32 (add32 (mix i (sb st) (sc st) (sd st)) (sa st))
                        (zth K i)) (zth m (word_index i)) in
  State (sd st) (add32 (sb st) (rotl32 f (zth S i))) (sb st) (sc st).

Definition rounds : list Z := map Z.of_nat (seq 0 64).

Definition block (st : state) (m : list Z) : state :=
  let r := fold_left (round m) rounds st in
  State (add32 (sa st) (sa r)) (add32 (sb st) (sb r))
        (add32 (sc st) (sc r)) (add32 (sd st) (sd r)).

(** Little-endian packing of bytes into 32-bit words. *)
Fixpoint words (bs : list Z) : list Z :=
  match bs with
  | b0 :: b1 :: b2 :: b3 :: rest =>
      (b0 + 256 * (b1 + 256 * (b2 + 256 * b3))) :: words rest
  | _ => []
  end.

Fixpoint chunks (fuel : nat) (ws : list Z) : list (list Z) :=
  match fuel with
  | O => []
  | Datatypes.S fuel' =>
      match ws with
      | [] => []
      | _ => firstn 16 ws :: chunks fuel' (skipn 16 ws)
      end
  end.

Definition le_bytes (n : nat) (x : Z) : list Z :=
  map (fun k => Z.land (Z.shiftr x (8 * Z.of_nat k)) 0xff) (seq 0 n).

(** Padding: a single 1 bit, zeros up to 56 modulo 64, then the bit length
    as a 64-bit little-endian integer. *)
Definition pad (bs : list Z) : list Z :=
  let len := Z.of_nat (List.length bs) in
  let zeros := Z.to_nat ((55 - len) mod 64) in
  bs ++ 0x80 :: repeat 0 zeros ++ le_bytes 8 (8 * len).

Definition bytes_of_string (s : string) : list Z :=
  map (fun c => Z.of_N (N_of_ascii c)) (list_ascii_of_string s).

Definition digest (bs : list Z) : state :=
  let ws := words (pad bs) in
  fold_left block (chunks (List.length ws) ws) init.

Definition hex_digit (x : Z) : ascii :=
  nth (Z.to_nat (Z.land x 0xf))
      (list_ascii_of_string "0123456789abcdef") "0"%char.

Definition hex_byte (b : Z) (rest : string) : string :=
  String (hex_digit (Z.shiftr b 4)) (String (hex_digit b) rest).

Definition hex_word (w : Z) (rest : string) : string :=
  hex_byte w (hex_byte (Z.shiftr w 8)
    (hex_byte (Z.shiftr w 16) (hex_byte (Z.shiftr w 24) rest))).

Definition hex_state (st : state) : string :=
  hex_word (sa st) (hex_word (sb st) (hex_word (sc st)
    (hex_word (sd st) ""))).

Definition md5 (s : string) : string := hex_state (digest (bytes_of_string s)).

End MD5.

(** Modelled from the spec: [lib/md5.js], required by the core and by the
    in-process backend, is not among the sources.  The specification
    describes it as a utility that "produces a fixed-length [...] fingerprint
    of an arbitrary string"; its callers name it MD5 and test its output for
    length 32, and the test-suite pins [md5('token')] and [md5('key')] to
    their MD5 digests in lower-case hexadecimal.  It is modelled as exactly
    that: the MD5 digest of the string, printed as 32 hexadecimal digits. *)
Definition md5 : string -> string := MD5.md5.

(** ** JavaScript values, completions and promises *)

(** The values that travel through the cache: what a backend's [_get] may
    resolve to, what [_hash] produces and what [_compare] answers. *)
Inductive jsval :=
| Undefined
| Null
| Bool (b : bool)
| Num (n : Z)
| Str (s : string).

(** JavaScript truthiness, as tested by [if (result)] and [!result]. *)
Definition truthy (v : jsval) : bool :=
  match v with
  | Undefined | Null => false
  | Bool b => b
  | Num n => negb (n =? 0)
  | Str s => negb (String.eqb s "")
  end.

(** [result === true] *)
Definition is_true (v : jsval) : bool :=
  match v with
  | Bool true => true
  | _ => false
  end.

Inductive exn :=
| Error (msg : string)
| TypeError (msg : string).

(** How a call ends: it returns a value or a promise fulfilled with it, it
    returns a rejected promise, or it throws synchronously. *)
Inductive outcome :=
| Fulfilled (v : jsval)
| Rejected (e : exn)
| Thrown (e : exn).

(** The arguments of an [emit('warn', ...)]. *)
Inductive warning :=
| Warn (what : exn) (cause : option exn)
| WarnText (what : string) (cause : exn).

(** The state an operation runs in: the backend's own state and the
    ['warn'] events emitted so far. *)
Record world (St : Type) := World { store : St; warnings : list warning }.
Arguments World {St} _ _.
Arguments store {St} _.
Arguments warnings {St} _.

Definition action (St : Type) : Type := world St -> outcome * world St.

Section Promise.
Context {St : Type}.

(** [self.emit('warn', ...)]; the listeners are taken not to throw. *)
Definition emit (x : warning) (w : world St) : world St :=
  World (store w) (warnings w ++ [x]).

(** [when(v)] *)
Definition resolve (v : jsval) : action St := fun w => (Fulfilled v, w).

(** [when.reject(e)] *)
Definition reject (e : exn) : action St := fun w => (Rejected e, w).

(** The body of a function handed to [then], [catch] or [tap]: an
    exception thrown inside it rejects the promise being built. *)
Definition callback (body : action St) : action St :=
  fun w =>
    match body w with
    | (Thrown e, w') => (Rejected e, w')
    | r => r
    end.

(** [p.then(f)] *)
Definition then_ (p : action St) (f : jsval -> action St) : action St :=
  fun w =>
    match p w with
    | (Fulfilled v, w') => callback (f v) w'
    | r => r
    end.

(** [p.catch(f)] *)
Definition catch_ (p : action St) (f : exn -> action St) : action St :=
  fun w =>
    match p w with
    | (Rejected e, w') => callback (f e) w'
    | r => r
    end.

(** [p.yield(v)], that is [p.then(function () { return v; })] *)
Definition yield_ (p : action St) (v : jsval) : action St :=
  then_ p (fun _ => resolve v).

(** [p.tap(f)], that is [p.then(f).yield(p)]: the side effect is awaited,
    its value dropped, its failure kept. *)
Definition tap (p : action St) (f : jsval -> action St) : action St :=
  then_ p (fun v => yield_ (f v) v).

(** [p.timeout(ms)].  A command that has not settled in time is a
    rejection like any other, and the client models it as such, so on a
    settled outcome the combinator changes nothing. *)
Definition timeout (ms : Z) (p : action St) : action St := p.

End Promise.

(** ** lib/bcrypt.js *)

(** The password-hashing primitive ([bcrypt] or [bcryptjs]) is an external
    capability.  [when.lift] turns its two callback-style functions into
    functions that return promises. *)
Record Bcrypt := {
  native_hash : string -> Z -> exn + string;
  native_compare : string -> jsval -> exn + bool
}.

Module bcrypt.

Definition lift {A St : Type} (inj : A -> jsval) (r : exn + A) : action St :=
  match r with
  | inl e => reject e
  | inr a => resolve (inj a)
  end.

Definition hash {St : Type} (lib : Bcrypt) (value : string) (cost : Z)
  : action St :=
  lift Str (native_hash lib value cost).

Definition compare {St : Type} (lib : Bcrypt) (value : string) (hash : jsval)
  : action St :=
  lift Bool (native_compare lib value hash).

End bcrypt.

(** ** lib/bcrypt-cache.js: the caching core *)

Module BcryptCache.

(** The five overridable methods of a cache. *)
Record backend (St : Type) := {
  _get : string -> action St;
  _set : string -> jsval -> action St;
  _remove : string -> action St;
  _hash : string -> action St;
  _compare : jsval -> string -> action St
}.
Arguments _get {St} _ _ _.
Arguments _set {St} _ _ _ _.
Arguments _remove {St} _ _ _.
Arguments _hash {St} _ _ _.
Arguments _compare {St} _ _ _ _.

(** The methods of [BcryptCache.prototype] that a child class overrides
    or inherits. *)
Module prototype.
Section Defaults.
Context {St : Type} (lib : Bcrypt).

Definition _get (key : string) : action St :=
  reject (Error "Not implemented").

Definition _set (key : string) (value : jsval) : action St :=
  reject (Error "Not implemented").

Definition _remove (key : string) : action St :=
  reject (Error "Not implemented").

Definition _hash (value : string) : action St :=
  bcrypt.hash lib value 4.

Definition _compare (hash : jsval) (value : string) : action St :=
  bcrypt.compare lib value hash.
End Defaults.
End prototype.

(** A bare [new BcryptCache()]. *)
Definition base (lib : Bcrypt) : backend unit := {|
  _get := prototype._get;
  _set := prototype._set;
  _remove := prototype._remove;
  _hash := prototype._hash lib;
  _compare := prototype._compare lib
|}.

Section Public.
Context {St : Type} (self : backend St).

Definition get (hash : string) : action St :=
  catch_ (_get self (md5 hash))
    (fun err w =>
       (Fulfilled Undefined,
        emit (Warn (Error "Failed to get data from the cache") (Some err)) w)).

(** [None] stands for an argument that is [null] or [undefined]. *)
Definition set (hash token : option string) : action St :=
  match hash, token with
  | Some hash, Some token =>
      catch_
        (then_ (_hash self token)
           (fun result => _set self (md5 hash) result))
        (fun err w =>
           (Fulfilled Undefined,
            emit (Warn (Error "Failed add hash to the cache") (Some err)) w))
  | _, _ =>
      fun w =>
        (Fulfilled (Bool false),
         emit (Warn (TypeError "Missing parameter(s)") None) w)
  end.

(** [needsSave] is a local variable assigned in the first callback and
    read in the last one; the callbacks after the first are nested here
    so that they see it. *)
Definition compare (hash token : string) : action St :=
  then_ (get hash)
    (fun result =>
       let needsSave := negb (truthy result) in
       let result := if needsSave then Str hash else result in
       tap (callback (_compare self result token))
         (fun result =>
            if is_true result && needsSave
            then set (Some hash) (Some token)
            else resolve Undefined)).

Definition remove (hash : string) : action St :=
  _remove self (md5 hash).

End Public.

End BcryptCache.

(** ** lib/memory-cache.js: the in-process backend *)

Module MemoryCache.

(** A cached object [{ value: ..., expiration: ... }]. *)
Record entry := Entry { value : jsval; expiration : Z }.

(** A [MemoryCache] instance: [this.options], [this.cache] and the reading
    of [Date.now()], all times in milliseconds.  [this.cache] is a plain
    object used as a map from cache keys, that is digests, to entries. *)
Record t := Make {
  ttl : Z;
  pruneTimer : Z;
  cache : gmap string entry;
  now : Z
}.

Definition with_cache (m : t) (c : gmap string entry) : t :=
  Make (ttl m) (pruneTimer m) c (now m).

(** Time passing between two operations. *)
Definition tick (ms : Z) (m : t) : t :=
  Make (ttl m) (pruneTimer m) (cache m) (now m + ms).

(** [new MemoryCache({ ttl: ..., pruneTimer: ... })]; an option left out
    takes its default. *)
Definition new (opt_ttl opt_pruneTimer : option Z) (date_now : Z) : t :=
  Make (default 600 opt_ttl * 1000) (default 60 opt_pruneTimer * 1000)
       ∅ date_now.

(** *** lodash on [this.cache]

    [_.get] and [_.has] take their second argument for a property path:
    the object's own property of that very name if there is one, and
    otherwise the property reached by following the names that
    [a.b], [a[0]] and [a["b"]] spell.  Below, the two functions as
    lodash 3 defines them, on the objects a path can reach from
    [this.cache]: an entry, and the primitive values under it.  Own
    properties only: what an object inherits ([constructor], [__proto__],
    the methods of strings) is left out, so the model is that of the code
    on keys none of whose names is an inherited one; the digests the core
    passes are such keys. *)
Module lodash.

(** What a path leads to: the entry stored under a key of the cache, or a
    primitive value. *)
Inductive found :=
| Object (key : string) (e : entry)
| Primitive (v : jsval).

Definition word (c : ascii) : bool :=
  let n := nat_of_ascii c in
  ((48 <=? n) && (n <=? 57) || (65 <=? n) && (n <=? 90)
   || (97 <=? n) && (n <=? 122) || (n =? 95))%nat.

Definition digit (c : ascii) : bool :=
  let n := nat_of_ascii c in ((48 <=? n) && (n <=? 57))%nat.

(** The characters that separate the names of a path. *)
Definition special (c : ascii) : bool :=
  Ascii.eqb c "." || Ascii.eqb c "[" || Ascii.eqb c "]".

(** [reIsPlainProp], [/^\w*$/] *)
Definition plain (s : string) : bool :=
  forallb word (list_ascii_of_string s).

(** [reIsDeepProp]: a dot, or an opening bracket with a closing one
    somewhere after it. *)
Fixpoint deep (opened : bool) (l : list ascii) : bool :=
  match l with
  | [] => false
  | c :: rest =>
      if Ascii.eqb c "." then true
      else if Ascii.eqb c "]" then opened || deep opened rest
      else if Ascii.eqb c "[" then deep true rest
      else deep opened rest
  end.

(** [isKey(value)] on a string *)
Definition isKey (s : string) : bool :=
  plain s || negb (deep false (list_ascii_of_string s)).

(** The longest run of characters that are no separators, and what
    follows it: the first alternative of [rePropName]. *)
Fixpoint run (l : list ascii) : list ascii * list ascii :=
  match l with
  | [] => ([], [])
  | c :: rest =>
      if special c then ([], l)
      else let (name, rest') := run rest in (c :: name, rest')
  end.

Fixpoint digits (l : list ascii) : list ascii * list ascii :=
  match l with
  | [] => ([], [])
  | c :: rest =>
      if digit c then let (ds, rest') := digits rest in (c :: ds, rest')
      else ([], l)
  end.

(** After an opening bracket, a number and the closing bracket:
    [(-?\d+(?:\.\d+)?)\]]. *)
Definition number (l : list ascii) : option (list ascii * list ascii) :=
  let (sign, l1) :=
    match l with
    | c :: rest => if Ascii.eqb c "-" then ([c], rest) else ([], l)
    | [] => ([], l)
    end in
  let (whole, l2) := digits l1 in
  match whole, l2 with
  | [], _ => None
  | _, c :: l3 =>
      if Ascii.eqb c "]" then Some ((sign ++ whole)%list, l3)
      else if Ascii.eqb c "." then
        let (fraction, l4) := digits l3 in
        match fraction, l4 with
        | _ :: _, d :: l5 =>
            if Ascii.eqb d "]"
            then Some ((sign ++ whole ++ c :: fraction)%list, l5)
            else None
        | _, _ => None
        end
      else None
  | _, [] => None
  end.

(** After an opening bracket and a quote, the quoted name, its quote and
    the closing bracket: [((?:(?!\2)[^\n\\]|\\.)*?)\2\]], with the
    backslashes that escape a character removed ([reEscapeChar]). *)
Fixpoint quoted (quote : ascii) (l : list ascii)
  : option (list ascii * list ascii) :=
  match l with
  | [] => None
  | c :: rest =>
      if Ascii.eqb c quote then
        match rest with
        | d :: rest' => if Ascii.eqb d "]" then Some ([], rest') else None
        | [] => None
        end
      else if Ascii.eqb c "\" then
        match rest with
        | d :: rest' =>
            if Ascii.eqb d "010" || Ascii.eqb d "013" then None
            else
              match quoted quote rest' with
              | Some (name, rest'') => Some (d :: name, rest'')
              | None => None
              end
        | [] => None
        end
      else if Ascii.eqb c "010" then None
      else
        match quoted quote rest with
        | Some (name, rest') => Some (c :: name, rest')
        | None => None
        end
  end.

(** The second alternative of [rePropName], after its opening bracket. *)
Definition bracket (l : list ascii) : option (list ascii * list ascii) :=
  match number l with
  | Some r => Some r
  | None =>
      match l with
      | c :: rest =>
          if Ascii.eqb c "034" || Ascii.eqb c "039" then quoted c rest
          else None
      | [] => None
      end
  end.

(** The matches of [rePropName] from left to right; a character at which
    it does not match is passed over. *)
Fixpoint names (fuel : nat) (l : list ascii) : list string :=
  match fuel, l with
  | S fuel, c :: rest =>
      if Ascii.eqb c "[" then
        match bracket rest with
        | Some (name, rest') => string_of_list_ascii name :: names fuel rest'
        | None => names fuel rest
        end
      else if special c then names fuel rest
      else
        let (name, rest') := run l in
        string_of_list_ascii name :: names fuel rest'
  | _, _ => []
  end.

(** [toPath(value)] on a string *)
Definition toPath (s : string) : list string :=
  names (String.length s) (list_ascii_of_string s).

(** The decimal writing of an index. *)
Definition decimal (i : nat) : string :=
  NilZero.string_of_uint (Nat.to_uint i).

(** [object[name]] for an own property: an entry has [value] and
    [expiration], a string its length and its characters (ASCII, one
    character a code unit), the other primitives nothing. *)
Definition member (o : found) (name : string) : option found :=
  match o with
  | Object _ e =>
      if String.eqb name "value" then Some (Primitive (value e))
      else if String.eqb name "expiration"
      then Some (Primitive (Num (expiration e)))
      else None
  | Primitive (Str s) =>
      if String.eqb name "length"
      then Some (Primitive (Num (Z.of_nat (String.length s))))
      else
        match List.find (fun i => String.eqb name (decimal i))
                        (seq 0 (String.length s)) with
        | Some i =>
            match String.get i s with
            | Some c => Some (Primitive (Str (String c EmptyString)))
            | None => None
            end
        | None => None
        end
  | Primitive _ => None
  end.

Fixpoint walk (o : found) (path : list string) : option found :=
  match path with
  | [] => Some o
  | name :: rest =>
      match member o name with
      | Some o' => walk o' rest
      | None => None
      end
  end.

(** [baseGet(this.cache, path)]; [None] is [undefined]. *)
Definition baseGet (c : gmap string entry) (path : list string)
  : option found :=
  match path with
  | [] => None
  | name :: rest =>
      match c !! name with
      | Some e => walk (Object name e) rest
      | None => None
      end
  end.

(** [_.get(this.cache, key)] *)
Definition get (c : gmap string entry) (key : string) : option found :=
  match c !! key with
  | Some e => Some (Object key e)
  | None => baseGet c (toPath key)
  end.

(** [_.has(this.cache, key)] *)
Definition has (c : gmap string entry) (key : string) : bool :=
  bool_decide (is_Some (c !! key))
  || negb (isKey key)
     && match toPath key with
        | [] => false
        | [name] => bool_decide (is_Some (c !! name))
        | path =>
            match baseGet c (removelast path), last path with
            | Some o, Some name => bool_decide (is_Some (member o name))
            | _, _ => false
            end
        end.

End lodash.

Definition _remove (key : string) : action t :=
  fun w =>
    let c := delete key (cache (store w)) in
    (Fulfilled (Bool (negb (lodash.has c key))),
     World (with_cache (store w) c) (warnings w)).

(** [this.remove], inherited from [BcryptCache.prototype]: it digests its
    argument before it reaches [_remove]. *)
Definition remove (hash : string) : action t :=
  _remove (md5 hash).

Definition _prune (m : t) : t :=
  with_cache m
    (filter (fun kv => ¬ (expiration (snd kv) < now m)) (cache m)).

(** What [_.get] finds is an entry, which is refreshed where it is
    stored, or, when the key spells a path into an entry, a primitive
    value: a falsy one is passed over, and on a truthy one the assignment
    to [value.expiration] throws, the file being in strict mode. *)
Definition _get (key : string) : action t :=
  fun w =>
    let m := store w in
    match lodash.get (cache m) key with
    | Some (lodash.Object stored value) =>
        if expiration value <? now m then
          let (_, w') := remove key w in
          (Fulfilled Undefined, w')
        else
          let value' := Entry (MemoryCache.value value) (now m + ttl m) in
          (Fulfilled (MemoryCache.value value),
           World (with_cache m (<[stored := value']> (cache m)))
                 (warnings w))
    | Some (lodash.Primitive value) =>
        if truthy value
        then (Thrown (TypeError "Cannot create property 'expiration'"), w)
        else (Fulfilled Undefined, w)
    | None => (Fulfilled Undefined, w)
    end.

(** [this.cache[key] = e]: an own property of that name, except under
    the name [__proto__], where the assignment replaces what the object
    inherits from and adds no property. *)
Definition assign (c : gmap string entry) (key : string) (e : entry)
  : gmap string entry :=
  if String.eqb key "__proto__" then c else <[key := e]> c.

Definition _set (key : string) (value : jsval) : action t :=
  fun w =>
    let m := store w in
    let c := assign (cache m) key (Entry value (now m + ttl m)) in
    (Fulfilled (Bool (lodash.has c key)),
     World (with_cache m c) (warnings w)).

Definition _hash (value : string) : action t :=
  resolve (Str (md5 value)).

(** [hash.length] throws on [undefined] and [null], is the length of a
    string (hashes and digests are ASCII, one character a byte), and is
    [undefined] on a boolean or a number. *)
Definition _compare (lib : Bcrypt) (hash : jsval) (value : string)
  : action t :=
  match hash with
  | Undefined | Null =>
      fun w => (Thrown (TypeError "Cannot read property 'length'"), w)
  | Str s =>
      if (String.length s =? 32)%nat
      then resolve (Bool (String.eqb (md5 value) s))
      else BcryptCache.prototype._compare lib hash value
  | _ => BcryptCache.prototype._compare lib hash value
  end.

Definition backend (lib : Bcrypt) : BcryptCache.backend t := {|
  BcryptCache._get := _get;
  BcryptCache._set := _set;
  BcryptCache._remove := _remove;
  BcryptCache._hash := _hash;
  BcryptCache._compare := _compare lib
|}.

End MemoryCache.

(** ** lib/redis-cache.js: the networked backend *)

Module RedisCache.

(** The promisified Redis client handed to the constructor, an external
    capability over a connection state [C].  Each command is answered
    with a reply or fails (connection error, time-out). *)
Record client (C : Type) := {
  getAsync : string -> C -> (exn + jsval) * C;
  setexAsync : string -> Z -> jsval -> C -> (exn + jsval) * C;
  delAsync : string -> C -> (exn + jsval) * C;
  expireAsync : string -> Z -> C -> (exn + jsval) * C
}.
Arguments getAsync {C} _ _ _.
Arguments setexAsync {C} _ _ _ _ _.
Arguments delAsync {C} _ _ _.
Arguments expireAsync {C} _ _ _ _.

(** A [RedisCache] instance: [this.options] and the connection. *)
Record t (C : Type) := Make { ttl : Z; prefix : string; conn : C }.
Arguments Make {C} _ _ _.
Arguments ttl {C} _.
Arguments prefix {C} _.
Arguments conn {C} _.

(** [new RedisCache({ client: ..., ttl: ..., prefix: ... })] *)
Definition new {C : Type} (opt_ttl : option Z) (opt_prefix : option string)
  (c : C) : t C :=
  Make (default 600 opt_ttl) (default "bcrypt-cache:" opt_prefix) c.

Section Methods.
Context {C : Type} (cl : client C).

(** Sending one command over [this.client]. *)
Definition command (cmd : C -> (exn + jsval) * C) : action (t C) :=
  fun w =>
    let r := store w in
    let (reply, c') := cmd (conn r) in
    let w' := World (Make (ttl r) (prefix r) c') (warnings w) in
    match reply with
    | inl e => (Rejected e, w')
    | inr v => (Fulfilled v, w')
    end.

Definition _get (key : string) : action (t C) :=
  fun w =>
    let self := store w in
    tap (timeout 250 (command (getAsync cl (prefix self +:+ key))))
      (fun result =>
         if truthy result then
           catch_ (command (expireAsync cl (prefix self +:+ key) (ttl self)))
             (fun err w =>
                (Fulfilled Undefined,
                 emit (WarnText "Error setting expiration" err) w))
         else resolve Undefined)
      w.

Definition _set (key : string) (value : jsval) : action (t C) :=
  fun w =>
    let self := store w in
    then_
      (timeout 250
         (command (setexAsync cl (prefix self +:+ key) (ttl self) value)))
      (fun result => resolve (Bool (truthy result)))
      w.

Definition _remove (key : string) : action (t C) :=
  fun w =>
    let self := store w in
    yield_ (command (delAsync cl (prefix self +:+ key))) (Bool true) w.

(** [_hash] and [_compare] are inherited. *)
Definition backend (lib : Bcrypt) : BcryptCache.backend (t C) := {|
  BcryptCache._get := _get;
  BcryptCache._set := _set;
  BcryptCache._remove := _remove;
  BcryptCache._hash := BcryptCache.prototype._hash lib;
  BcryptCache._compare := BcryptCache.prototype._compare lib
|}.

End Methods.

End RedisCache.

(** ** Fixtures *)

Module Fixture.

(** The token and its bcrypt hash used throughout the test-suite. *)
Definition token : string := "token".
Definition tokenHash : string :=
  "$2a$10$o4ezyhBv1b2tOQmHH1kiO.vdeIPLQQcY.1aCtH9VODTK.1/CpyRPa".

(** A stand-in for the bcrypt library, enough to run the examples: it
    knows that [tokenHash] is a hash of [token], hashes a value by
    tagging it, and answers [false] on anything else, as bcrypt does on a
    string that is not one of its hashes. *)
Definition bcrypt_double : Bcrypt := {|
  native_hash value cost := inr ("$2a$04$" +:+ value);
  native_compare value hash :=
    match hash with
    | Str s =>
        inr (String.eqb s ("$2a$04$" +:+ value)
             || (String.eqb value token && String.eqb s tokenHash))
    | _ => inl (Error "Illegal arguments")
    end
|}.

(** A stand-in for the Redis server and client, as [fakeredis] is in the
    test-suite: keys with a deadline in milliseconds, a clock, and a
    connection that is open or closed. *)
Record redis := Redis {
  db : gmap string (jsval * Z);
  time : Z;
  connected : bool
}.

Definition live (r : redis) (key : string) : option (jsval * Z) :=
  match db r !! key with
  | Some (v, deadline) =>
      if deadline <=? time r then None else Some (v, deadline)
  | None => None
  end.

Definition closed : exn := Error "Connection closed".

Definition fake_client : RedisCache.client redis := {|
  RedisCache.getAsync key r :=
    if connected r then
      (inr (match live r key with Some (v, _) => v | None => Null end), r)
    else (inl closed, r);
  RedisCache.setexAsync key seconds value r :=
    if connected r then
      (inr (Str "OK"),
       Redis (<[key := (value, time r + 1000 * seconds)]> (db r))
             (time r) (connected r))
    else (inl closed, r);
  RedisCache.delAsync key r :=
    if connected r then
      (inr (Num (match live r key with Some _ => 1 | None => 0 end)),
       Redis (delete key (db r)) (time r) (connected r))
    else (inl closed, r);
  RedisCache.expireAsync key seconds r :=
    if connected r then
      match live r key with
      | Some (v, _) =>
          (inr (Num 1),
           Redis (<[key := (v, time r + 1000 * seconds)]> (db r))
                 (time r) (connected r))
      | None => (inr (Num 0), r)
      end
    else (inl closed, r)
|}.

Definition memory : BcryptCache.backend MemoryCache.t :=
  MemoryCache.backend bcrypt_double.

Definition redis_backend : BcryptCache.backend (RedisCache.t redis) :=
  RedisCache.backend fake_client bcrypt_double.

(** [new MemoryCache({ ttl: 1, pruneTimer: 10 })] at time 0. *)
Definition fresh_memory : world MemoryCache.t :=
  World (MemoryCache.new (Some 1) (Some 10) 0) [].

(** [new RedisCache({ ttl: 1, client: ... })] over an empty store. *)
Definition fresh_redis (up : bool) : world (RedisCache.t redis) :=
  World (RedisCache.new (Some 1) None (Redis ∅ 0 up)) [].

(** A cache with one entry, under the key of [tokenHash]. *)
Definition memory_holding (v : jsval) (expiration date_now : Z)
  : world MemoryCache.t :=
  World (MemoryCache.Make 1000 10000
           {[ md5 tokenHash := MemoryCache.Entry v expiration ]} date_now) [].

(** A networked cache over a store with one key, that of [tokenHash]. *)
Definition redis_holding (v : jsval) (deadline clock : Z)
  : RedisCache.t redis :=
  RedisCache.Make 1 "bcrypt-cache:"
    (Redis {[ "bcrypt-cache:" +:+ md5 tokenHash := (v, deadline) ]}
           clock true).

(** The clock of the in-process cache moving on, as [clock.tick] does. *)
Definition tick (ms : Z) (w : world MemoryCache.t) : world MemoryCache.t :=
  World (MemoryCache.tick ms (store w)) (warnings w).

(** The clock of the store moving on, as [clock.travel] does. *)
Definition travel (ms : Z) (w : world (RedisCache.t redis))
  : world (RedisCache.t redis) :=
  World (RedisCache.Make (RedisCache.ttl (store w))
           (RedisCache.prefix (store w))
           (Redis (db (RedisCache.conn (store w)))
                  (time (RedisCache.conn (store w)) + ms)
                  (connected (RedisCache.conn (store w)))))
        (warnings w).

(** Running one operation after another, for the state it leaves. *)
Definition after {St : Type} (a : action St) (w : world St) : world St :=
  snd (a w).

End Fixture.

(** ** Sessions *)

(** What can happen to an in-process cache during its life: the four public
    operations, time passing, and the periodic scan. *)
Module Session.

Inductive event :=
| Get (hash : string)
| Put (hash token : option string)
| Remove (hash : string)
| Compare (hash token : string)
| Tick (ms : Z)
| Prune.

Definition step (lib : Bcrypt) (w : world MemoryCache.t) (e : event)
  : world MemoryCache.t :=
  match e with
  | Get hash => snd (BcryptCache.get (MemoryCache.backend lib) hash w)
  | Put hash token =>
      snd (BcryptCache.set (MemoryCache.backend lib) hash token w)
  | Remove hash => snd (BcryptCache.remove (MemoryCache.backend lib) hash w)
  | Compare hash token =>
      snd (BcryptCache.compare (MemoryCache.backend lib) hash token w)
  | Tick ms => World (MemoryCache.tick ms (store w)) (warnings w)
  | Prune => World (MemoryCache._prune (store w)) (warnings w)
  end.

Definition run (lib : Bcrypt) (events : list event) (w : world MemoryCache.t)
  : world MemoryCache.t :=
  fold_left (step lib) events w.

End Session.

(** ** Predicates on actions *)

(** An action that settles: it never throws synchronously. *)
Definition never_throws {St : Type} (a : action St) : Prop :=
  forall w e, fst (a w) <> Thrown e.

(** An action that, run in [w], is fulfilled. *)
Definition resolves {St : Type} (a : action St) (w : world St) : Prop :=
  exists v, fst (a w) = Fulfilled v.

(** The comparison a backend runs against the original hash is the
    authoritative one when it is bcrypt's. *)
Definition authoritative {St : Type} (lib : Bcrypt)
  (self : BcryptCache.backend St) (hash token : string) : Prop :=
  forall w,
    BcryptCache._compare self (Str hash) token w
    = bcrypt.compare lib token (Str hash) w.

(** The shape by which [MemoryCache.prototype._compare] takes a string for
    a digest rather than for an authoritative hash: 32 characters.  (A
    bcrypt hash has 60.) *)
Definition digest_shaped (s : string) : Prop := String.length s = 32%nat.

(** An action that takes every world to one related to it by [R]. *)
Definition respects {St : Type} (R : world St -> world St -> Prop)
  (a : action St) : Prop :=
  forall w, R w (snd (a w)).




(** Every value of the in-process cache is the digest of some token. *)
Definition digest_values (w : world MemoryCache.t) : Prop :=
  forall k e,
    MemoryCache.cache (store w) !! k = Some e ->
    exists token, MemoryCache.value e = Str (md5 token).

(** No entry of the in-process cache expires later than one lifetime from
    the present. *)
Definition within_lifetime (w : world MemoryCache.t) : Prop :=
  forall k e,
    MemoryCache.cache (store w) !! k = Some e ->
    MemoryCache.expiration e
    <= MemoryCache.now (store w) + MemoryCache.ttl (store w).

(** A session in which the clock never runs backwards. *)
Definition forward (events : list Session.event) : Prop :=
  Forall (fun e => match e with Session.Tick ms => 0 <= ms | _ => True end)
         events.

(** Reading [hash] once after each of the [gaps]. *)
Definition reads_at (hash : string) (gaps : list Z) : list Session.event :=
  flat_map (fun gap => [Session.Tick gap; Session.Get hash]) gaps.

(** ** Faulty collaborators *)

Module Faults.

(** A store that serves every command but the expiry refresh. *)
Definition no_expire : RedisCache.client Fixture.redis := {|
  RedisCache.getAsync := RedisCache.getAsync Fixture.fake_client;
  RedisCache.setexAsync := RedisCache.setexAsync Fixture.fake_client;
  RedisCache.delAsync := RedisCache.delAsync Fixture.fake_client;
  RedisCache.expireAsync key seconds r := (inl Fixture.closed, r)
|}.


(** A bcrypt library whose [hash] always fails. *)
Definition no_hash : Bcrypt := {|
  native_hash value cost := inl (Error "Illegal arguments");
  native_compare := native_compare Fixture.bcrypt_double
|}.

End Faults.

(** ** Properties *)

(** The digests the test-suite expects for ['token'] and ['key']. *)
Example md5_token : md5 "token" = "94a08da1fecbb6e8b46990538c7b50b2".
Proof. vm_compute. reflexivity. Qed.

Example md5_key : md5 "key" = "3c6e0b8a9c15224a8228b9a98ca1531d".
Proof. vm_compute. reflexivity. Qed.

(** The test vector of RFC 1321 for the empty string, and a message of two
    blocks. *)
Example md5_empty : md5 "" = "d41d8cd98f00b204e9800998ecf8427e".
Proof. vm_compute. reflexivity. Qed.

Example md5_two_blocks :
  md5 "$2a$10$o4ezyhBv1b2tOQmHH1kiO.vdeIPLQQcY.1aCtH9VODTK.1/CpyRPa"
  = "2dbfa086c61d9b1ba4c01da947fd81c6".
Proof. vm_compute. reflexivity. Qed.

Lemma md5_length (s : string) : String.length (md5 s) = 32%nat.
Proof.
  unfold md5, MD5.md5. generalize (MD5.digest (MD5.bytes_of_string s)).
  intros st. reflexivity.
Qed.

Lemma md5_digest_shaped (s : string) : digest_shaped (md5 s).
Proof. apply md5_length. Qed.

(** *** Cache keys and lodash *)

Lemma hex_digit_word (x : Z) :
  MemoryCache.lodash.word (MD5.hex_digit x) = true.
Proof.
  unfold MD5.hex_digit. change 0xf with (Z.ones 4).
  rewrite Z.land_ones by lia.
  assert (H : (Z.to_nat (x mod 2 ^ 4) < 16)%nat).
  { pose proof (Z.mod_pos_bound x (2 ^ 4)). lia. }
  revert H. generalize (Z.to_nat (x mod 2 ^ 4)). intros n H.
  do 16 (destruct n as [| n]; [reflexivity |]). lia.
Qed.

(** A digest is made of hexadecimal digits: as a key it spells no path. *)
Lemma md5_plain (s : string) : MemoryCache.lodash.plain (md5 s) = true.
Proof.
  unfold md5, MD5.md5. generalize (MD5.digest (MD5.bytes_of_string s)).
  intros st. unfold MemoryCache.lodash.plain, MD5.hex_state, MD5.hex_word,
    MD5.hex_byte.
  cbn [list_ascii_of_string forallb]. now rewrite !hex_digit_word.
Qed.

Lemma word_not_special c :
  MemoryCache.lodash.word c = true -> MemoryCache.lodash.special c = false.
Proof.
  destruct c as [[] [] [] [] [] [] [] []]; cbv; congruence.
Qed.

Lemma run_words l :
  forallb MemoryCache.lodash.word l = true ->
  MemoryCache.lodash.run l = (l, []).
Proof.
  induction l as [| c l IH]; cbn [forallb MemoryCache.lodash.run]; [easy |].
  intros [Hc Hl]%andb_prop. rewrite (word_not_special c Hc).
  now rewrite (IH Hl).
Qed.

Lemma deep_words l opened :
  forallb MemoryCache.lodash.word l = true ->
  MemoryCache.lodash.deep opened l = false.
Proof.
  induction l as [| c l IH]; cbn [forallb MemoryCache.lodash.deep]; [easy |].
  intros [Hc Hl]%andb_prop. apply word_not_special in Hc.
  unfold MemoryCache.lodash.special in Hc.
  apply orb_false_elim in Hc as [[H1 H2]%orb_false_elim H3].
  rewrite H1, H2, H3. now apply IH.
Qed.

Lemma toPath_plain (s : string) :
  MemoryCache.lodash.plain s = true ->
  MemoryCache.lodash.toPath s = match s with "" => [] | _ => [s] end.
Proof.
  unfold MemoryCache.lodash.plain, MemoryCache.lodash.toPath. intros H.
  destruct s as [| c s]; [reflexivity |].
  pose proof (run_words _ H) as Hrun.
  cbn [list_ascii_of_string String.length MemoryCache.lodash.names] in *.
  cbn [forallb] in H. apply andb_prop in H as [Hc _].
  pose proof (word_not_special c Hc) as Hs.
  assert (Hb : Ascii.eqb c "[" = false).
  { unfold MemoryCache.lodash.special in Hs.
    now apply orb_false_elim in Hs as [[_ ?]%orb_false_elim _]. }
  rewrite Hb, Hs, Hrun.
  change (c :: list_ascii_of_string s)
    with (list_ascii_of_string (String c s)).
  rewrite string_of_list_ascii_of_string.
  now destruct (String.length s).
Qed.

Lemma md5_is_key (s : string) : MemoryCache.lodash.isKey (md5 s) = true.
Proof. unfold MemoryCache.lodash.isKey. now rewrite md5_plain. Qed.

(** On a key that spells no path, [_.has] is the own-property test. *)
Lemma has_key (c : gmap string MemoryCache.entry) key :
  MemoryCache.lodash.isKey key = true ->
  MemoryCache.lodash.has c key = bool_decide (is_Some (c !! key)).
Proof.
  intros H. unfold MemoryCache.lodash.has.
  rewrite H. cbn. apply orb_false_r.
Qed.

(** An own property of the cache is what [_.get] answers with. *)
Lemma get_own (c : gmap string MemoryCache.entry) key e :
  c !! key = Some e ->
  MemoryCache.lodash.get c key = Some (MemoryCache.lodash.Object key e).
Proof. unfold MemoryCache.lodash.get. now intros ->. Qed.

Lemma get_plain_absent (c : gmap string MemoryCache.entry) key :
  MemoryCache.lodash.plain key = true ->
  c !! key = None ->
  MemoryCache.lodash.get c key = None.
Proof.
  intros H E. unfold MemoryCache.lodash.get. rewrite E, (toPath_plain key H).
  destruct key; cbn; [reflexivity | now rewrite E].
Qed.

Lemma walk_primitive v path k e :
  MemoryCache.lodash.walk (MemoryCache.lodash.Primitive v) path
  <> Some (MemoryCache.lodash.Object k e).
Proof.
  revert v. induction path as [| name path IH]; intros v; cbn; [easy |].
  destruct v as [| | b | n | s]; cbn; try easy.
  destruct (String.eqb name "length"); [apply IH |].
  destruct (List.find _ _); [| easy].
  destruct (String.get _ _); [apply IH | easy].
Qed.

(** An entry that [_.get] answers with is stored in the cache, under the
    key it is answered with. *)
Lemma get_object (c : gmap string MemoryCache.entry) key k e :
  MemoryCache.lodash.get c key = Some (MemoryCache.lodash.Object k e) ->
  c !! k = Some e.
Proof.
  unfold MemoryCache.lodash.get.
  destruct (c !! key) as [e0 |] eqn:E; [intros [= <- <-]; exact E |].
  unfold MemoryCache.lodash.baseGet.
  destruct (MemoryCache.lodash.toPath key) as [| name rest]; [easy |].
  destruct (c !! name) as [e1 |] eqn:E1; [| easy].
  destruct rest as [| name' rest]; cbn.
  - now intros [= <- <-].
  - destruct (String.eqb name' "value"); [intros H; now apply walk_primitive in H |].
    destruct (String.eqb name' "expiration"); [| easy].
    intros H; now apply walk_primitive in H.
Qed.

(** On a key that spells no path, [_get] looks up the own property of that
    name. *)
Lemma memory_get_cache_key key (w : world MemoryCache.t) :
  MemoryCache.lodash.plain key = true ->
  MemoryCache._get key w
  = match MemoryCache.cache (store w) !! key with
    | Some value =>
        if MemoryCache.expiration value <? MemoryCache.now (store w) then
          (Fulfilled Undefined, snd (MemoryCache.remove key w))
        else
          (Fulfilled (MemoryCache.value value),
           World (MemoryCache.with_cache (store w)
                    (<[key := MemoryCache.Entry (MemoryCache.value value)
                                (MemoryCache.now (store w)
                                 + MemoryCache.ttl (store w))]>
                       (MemoryCache.cache (store w))))
                 (warnings w))
    | None => (Fulfilled Undefined, w)
    end.
Proof.
  intros H. unfold MemoryCache._get. cbn zeta.
  destruct (MemoryCache.cache (store w) !! key) as [e |] eqn:E.
  - rewrite (get_own _ _ _ E).
    destruct (MemoryCache.expiration e <? MemoryCache.now (store w));
      [| reflexivity].
    now destruct (MemoryCache.remove key w).
  - now rewrite (get_plain_absent _ _ H E).
Qed.

(** *** The scenarios of the test-suite *)

(** "should store a key and retrieve it" *)
Example memory_store_and_retrieve :
  fst (BcryptCache.set Fixture.memory (Some Fixture.tokenHash)
         (Some Fixture.token) Fixture.fresh_memory)
  = Fulfilled (Bool true)
  /\ fst (BcryptCache.get Fixture.memory Fixture.tokenHash
            (Fixture.after
               (BcryptCache.set Fixture.memory (Some Fixture.tokenHash)
                  (Some Fixture.token))
               Fixture.fresh_memory))
     = Fulfilled (Str "94a08da1fecbb6e8b46990538c7b50b2").
Proof. split; vm_compute; reflexivity. Qed.

(** "should verify a key that is not in the cache", on both backends: the
    comparison succeeds and the cache then holds the cheap hash. *)
Example verify_then_cached :
  fst (BcryptCache.compare Fixture.memory Fixture.tokenHash Fixture.token
         Fixture.fresh_memory)
  = Fulfilled (Bool true)
  /\ fst (BcryptCache.get Fixture.memory Fixture.tokenHash
            (Fixture.after
               (BcryptCache.compare Fixture.memory Fixture.tokenHash
                  Fixture.token)
               Fixture.fresh_memory))
     = Fulfilled (Str "94a08da1fecbb6e8b46990538c7b50b2")
  /\ fst (BcryptCache.compare Fixture.redis_backend Fixture.tokenHash
            Fixture.token (Fixture.fresh_redis true))
     = Fulfilled (Bool true)
  /\ fst (BcryptCache.get Fixture.redis_backend Fixture.tokenHash
            (Fixture.after
               (BcryptCache.compare Fixture.redis_backend Fixture.tokenHash
                  Fixture.token)
               (Fixture.fresh_redis true)))
     = Fulfilled (Str "$2a$04$token").
Proof. repeat split; vm_compute; reflexivity. Qed.

(** "should not verify a key that is not in the cache" *)
Example wrong_token_not_verified :
  fst (BcryptCache.compare Fixture.memory "token123" Fixture.tokenHash
         Fixture.fresh_memory)
  = Fulfilled (Bool false)
  /\ fst (BcryptCache.compare Fixture.redis_backend "token123"
            Fixture.tokenHash (Fixture.fresh_redis true))
     = Fulfilled (Bool false).
Proof. split; vm_compute; reflexivity. Qed.

(** "should remove a key" and "should remove a non-existant key" *)
Example remove_then_absent :
  fst (BcryptCache.remove Fixture.memory "key"
         (Fixture.after
            (BcryptCache.set Fixture.memory (Some "key") (Some Fixture.token))
            Fixture.fresh_memory))
  = Fulfilled (Bool true)
  /\ fst (BcryptCache.get Fixture.memory "key"
            (Fixture.after (BcryptCache.remove Fixture.memory "key")
               (Fixture.after
                  (BcryptCache.set Fixture.memory (Some "key")
                     (Some Fixture.token))
                  Fixture.fresh_memory)))
     = Fulfilled Undefined
  /\ fst (BcryptCache.remove Fixture.redis_backend "otherkey"
            (Fixture.fresh_redis true))
     = Fulfilled (Bool true).
Proof. repeat split; vm_compute; reflexivity. Qed.

(** "should reset expiration on get", in-process: written at 0 the entry
    expires at 1000; read at 900 it expires at 1900; read at 1800 it
    expires at 2800; at 6800 it is reported absent. *)
Example memory_expiration_resets :
  MemoryCache.cache
    (store (Fixture.after
              (BcryptCache.set Fixture.memory (Some "key") (Some Fixture.token))
              Fixture.fresh_memory))
  !! "3c6e0b8a9c15224a8228b9a98ca1531d"
  = Some (MemoryCache.Entry (Str "94a08da1fecbb6e8b46990538c7b50b2") 1000)
  /\ MemoryCache.cache
       (store (Fixture.after (BcryptCache.get Fixture.memory "key")
                 (Fixture.tick 900
                    (Fixture.after
                       (BcryptCache.set Fixture.memory (Some "key")
                          (Some Fixture.token))
                       Fixture.fresh_memory))))
     !! "3c6e0b8a9c15224a8228b9a98ca1531d"
     = Some (MemoryCache.Entry (Str "94a08da1fecbb6e8b46990538c7b50b2") 1900)
  /\ MemoryCache.cache
       (store (Fixture.after (BcryptCache.get Fixture.memory "key")
                 (Fixture.tick 900
                    (Fixture.after (BcryptCache.get Fixture.memory "key")
                       (Fixture.tick 900
                          (Fixture.after
                             (BcryptCache.set Fixture.memory (Some "key")
                                (Some Fixture.token))
                             Fixture.fresh_memory))))))
     !! "3c6e0b8a9c15224a8228b9a98ca1531d"
     = Some (MemoryCache.Entry (Str "94a08da1fecbb6e8b46990538c7b50b2") 2800)
  /\ fst (BcryptCache.get Fixture.memory "key"
            (Fixture.tick 5000
               (Fixture.after (BcryptCache.get Fixture.memory "key")
                  (Fixture.tick 900
                     (Fixture.after (BcryptCache.get Fixture.memory "key")
                        (Fixture.tick 900
                           (Fixture.after
                              (BcryptCache.set Fixture.memory (Some "key")
                                 (Some Fixture.token))
                              Fixture.fresh_memory)))))))
     = Fulfilled Undefined.
Proof. repeat split; vm_compute; reflexivity. Qed.

(** "should prune expiring cache keys", networked: two seconds after a
    write with a lifetime of one second the key is gone. *)
Example redis_expiration :
  fst (BcryptCache.get Fixture.redis_backend "key"
         (Fixture.travel 2000
            (Fixture.after
               (BcryptCache.set Fixture.redis_backend (Some "key")
                  (Some Fixture.token))
               (Fixture.fresh_redis true))))
  = Fulfilled Null
  /\ fst (BcryptCache.get Fixture.redis_backend "key"
            (Fixture.travel 900
               (Fixture.after
                  (BcryptCache.set Fixture.redis_backend (Some "key")
                     (Some Fixture.token))
                  (Fixture.fresh_redis true))))
     = Fulfilled (Str "$2a$04$token").
Proof. split; vm_compute; reflexivity. Qed.

(** "should verify a key if lookup fails" and "should verify if saving key
    to the cache fails": with the connection closed both [_get] and [_set]
    reject, the comparison still answers true, and two warnings are
    emitted. *)
Example verify_despite_failures :
  BcryptCache.compare Fixture.redis_backend Fixture.tokenHash Fixture.token
    (Fixture.fresh_redis false)
  = (Fulfilled (Bool true),
     World (store (Fixture.fresh_redis false))
       [Warn (Error "Failed to get data from the cache") (Some Fixture.closed);
        Warn (Error "Failed add hash to the cache") (Some Fixture.closed)]).
Proof. vm_compute. reflexivity. Qed.

(** *** The combinators *)

Lemma then_fulfilled {St : Type} (p : action St) f w v w1 :
  p w = (Fulfilled v, w1) -> then_ p f w = callback (f v) w1.
Proof. intros E. unfold then_. now rewrite E. Qed.

Lemma then_rejected {St : Type} (p : action St) f w e w1 :
  p w = (Rejected e, w1) -> then_ p f w = (Rejected e, w1).
Proof. intros E. unfold then_. now rewrite E. Qed.

Lemma callback_settled {St : Type} (a : action St) w e :
  fst (callback a w) <> Thrown e.
Proof. unfold callback. destruct (a w) as [[v | e' | e'] w1]; discriminate. Qed.

Lemma callback_fulfilled {St : Type} (a : action St) w v w1 :
  a w = (Fulfilled v, w1) -> callback a w = (Fulfilled v, w1).
Proof. intros E. unfold callback. now rewrite E. Qed.

Lemma lift_never_throws {A St : Type} (inj : A -> jsval) (r : exn + A) :
  never_throws (@bcrypt.lift A St inj r).
Proof. intros w e. destruct r; discriminate. Qed.

(** *** The core: [get] and [set] *)

Section CoreFacts.
Context {St : Type} (self : BcryptCache.backend St).

Lemma get_hit hash w v w1 :
  BcryptCache._get self (md5 hash) w = (Fulfilled v, w1) ->
  BcryptCache.get self hash w = (Fulfilled v, w1).
Proof. intros E. unfold BcryptCache.get, catch_. now rewrite E. Qed.

Lemma get_failed hash w err w1 :
  BcryptCache._get self (md5 hash) w = (Rejected err, w1) ->
  BcryptCache.get self hash w
  = (Fulfilled Undefined,
     emit (Warn (Error "Failed to get data from the cache") (Some err)) w1).
Proof. intros E. unfold BcryptCache.get, catch_. now rewrite E. Qed.

Lemma get_resolves hash w :
  (forall e, fst (BcryptCache._get self (md5 hash) w) <> Thrown e) ->
  resolves (BcryptCache.get self hash) w.
Proof.
  intros H. unfold resolves, BcryptCache.get, catch_, callback.
  destruct (BcryptCache._get self (md5 hash) w) as [[v | e | e] w1] eqn:E;
    cbn [fst] in *; eauto.
  now destruct (H e).
Qed.

Lemma set_missing_parameter hash token w :
  hash = None \/ token = None ->
  BcryptCache.set self hash token w
  = (Fulfilled (Bool false),
     emit (Warn (TypeError "Missing parameter(s)") None) w).
Proof. intros [-> | ->]; [| destruct hash]; reflexivity. Qed.

Lemma set_stored hash token w r w1 v w2 :
  BcryptCache._hash self token w = (Fulfilled r, w1) ->
  BcryptCache._set self (md5 hash) r w1 = (Fulfilled v, w2) ->
  BcryptCache.set self (Some hash) (Some token) w = (Fulfilled v, w2).
Proof.
  intros E1 E2. unfold BcryptCache.set, catch_, then_, callback.
  now rewrite E1, E2.
Qed.

Lemma set_failed hash token w err w' :
  BcryptCache._hash self token w = (Rejected err, w') \/
  (exists r w1,
      BcryptCache._hash self token w = (Fulfilled r, w1) /\
      (BcryptCache._set self (md5 hash) r w1 = (Rejected err, w') \/
       BcryptCache._set self (md5 hash) r w1 = (Thrown err, w'))) ->
  BcryptCache.set self (Some hash) (Some token) w
  = (Fulfilled Undefined,
     emit (Warn (Error "Failed add hash to the cache") (Some err)) w').
Proof.
  unfold BcryptCache.set, catch_, then_, callback.
  intros [E | (r & w1 & E1 & [E2 | E2])].
  - now rewrite E.
  - now rewrite E1, E2.
  - now rewrite E1, E2.
Qed.

Lemma set_resolves hash token w :
  (forall e, fst (BcryptCache._hash self token w) <> Thrown e) ->
  resolves (BcryptCache.set self (Some hash) (Some token)) w.
Proof.
  intros H. unfold resolves, BcryptCache.set, catch_, then_, callback.
  destruct (BcryptCache._hash self token w) as [[r | e | e] w1] eqn:E1;
    cbn [fst] in *; eauto.
  - destruct (BcryptCache._set self (md5 hash) r w1) as [[v | e | e] w2];
      cbn [fst]; eauto.
  - now destruct (H e).
Qed.

Lemma set_never_rejects hash token w e :
  fst (BcryptCache.set self hash token w) <> Rejected e.
Proof.
  destruct hash as [hash |], token as [token |]; try discriminate.
  unfold BcryptCache.set, catch_, then_, callback.
  destruct (BcryptCache._hash self token w) as [[r | e' | e'] w1];
    try discriminate.
  destruct (BcryptCache._set self (md5 hash) r w1) as [[v | e' | e'] w2];
    discriminate.
Qed.

(** What [compare] does once the lookup has come back empty-handed: the
    comparison runs against the original hash, and a [true] answer is
    followed by [set]. *)
Lemma compare_miss hash token w v w1 :
  BcryptCache.get self hash w = (Fulfilled v, w1) ->
  truthy v = false ->
  BcryptCache.compare self hash token w
  = callback
      (tap (callback (BcryptCache._compare self (Str hash) token))
         (fun result =>
            if is_true result
            then BcryptCache.set self (Some hash) (Some token)
            else resolve Undefined)) w1.
Proof.
  intros E Hv. unfold BcryptCache.compare.
  rewrite (then_fulfilled _ _ _ _ _ E). rewrite Hv. cbn [negb].
  unfold tap, then_, callback.
  destruct (BcryptCache._compare self (Str hash) token w1)
    as [[r | e | e] w2]; try reflexivity.
  now rewrite andb_true_r.
Qed.

Lemma compare_hit hash token w v w1 :
  BcryptCache.get self hash w = (Fulfilled v, w1) ->
  truthy v = true ->
  BcryptCache.compare self hash token w
  = callback (BcryptCache._compare self v token) w1.
Proof.
  intros E Hv. unfold BcryptCache.compare.
  rewrite (then_fulfilled _ _ _ _ _ E). rewrite Hv. cbn [negb].
  unfold tap, then_, callback, yield_, then_, resolve.
  destruct (BcryptCache._compare self v token w1) as [[r | e | e] w2];
    try reflexivity.
  now rewrite andb_false_r.
Qed.

End CoreFacts.

(** *** The networked backend *)

Section RedisFacts.
Context {C : Type} (cl : RedisCache.client C).

Lemma command_never_throws (cmd : C -> (exn + jsval) * C) :
  never_throws (RedisCache.command cmd).
Proof.
  intros w e. unfold RedisCache.command.
  destruct (cmd _) as [[e' | v] c']; discriminate.
Qed.

Lemma redis_get_never_throws key : never_throws (RedisCache._get cl key).
Proof.
  intros w e. unfold RedisCache._get, tap, then_, timeout.
  pose proof (command_never_throws
                (RedisCache.getAsync cl (RedisCache.prefix (store w) +:+ key))
                w) as H.
  destruct (RedisCache.command _ w) as [[v | e' | e'] w1]; cbn [fst] in *.
  - apply callback_settled.
  - discriminate.
  - now destruct (H e').
Qed.

(** [_remove] answers [true] to any reply of the delete command, and
    rejects when the command fails. *)
Lemma redis_remove_replied key (r : RedisCache.t C) ws reply c' :
  RedisCache.delAsync cl (RedisCache.prefix r +:+ key) (RedisCache.conn r)
  = (inr reply, c') ->
  RedisCache._remove cl key (World r ws)
  = (Fulfilled (Bool true),
     World (RedisCache.Make (RedisCache.ttl r) (RedisCache.prefix r) c') ws).
Proof.
  intros E. unfold RedisCache._remove, yield_, then_, RedisCache.command.
  cbn [store warnings]. now rewrite E.
Qed.

Lemma redis_remove_failed key (r : RedisCache.t C) ws e c' :
  RedisCache.delAsync cl (RedisCache.prefix r +:+ key) (RedisCache.conn r)
  = (inl e, c') ->
  RedisCache._remove cl key (World r ws)
  = (Rejected e,
     World (RedisCache.Make (RedisCache.ttl r) (RedisCache.prefix r) c') ws).
Proof.
  intros E. unfold RedisCache._remove, yield_, then_, RedisCache.command.
  cbn [store warnings]. now rewrite E.
Qed.

End RedisFacts.

(** *** Failures of the backend *)

(** C7.  When the backend's [_get] rejects, whatever the reason, [get]
    emits one warning carrying that reason and resolves to [undefined]:
    the caller sees an absent value, not an error. *)
Theorem get_lookup_failure_is_absent {St : Type}
  (self : BcryptCache.backend St) (hash : string) (w w1 : world St)
  (err : exn) :
  BcryptCache._get self (md5 hash) w = (Rejected err, w1) ->
  BcryptCache.get self hash w
  = (Fulfilled Undefined,
     emit (Warn (Error "Failed to get data from the cache") (Some err)) w1).
Proof. apply get_failed. Qed.

Lemma get_lookup_failure_is_absent_witness :
  BcryptCache.get Fixture.redis_backend Fixture.tokenHash
    (Fixture.fresh_redis false)
  = (Fulfilled Undefined,
     emit (Warn (Error "Failed to get data from the cache")
             (Some Fixture.closed))
       (Fixture.fresh_redis false)).
Proof.
  apply (get_lookup_failure_is_absent Fixture.redis_backend Fixture.tokenHash
           (Fixture.fresh_redis false) (Fixture.fresh_redis false)
           Fixture.closed).
  vm_compute. reflexivity.
Defined.

(** C8, as the code has it.  For a hash and a token that are both present,
    when the re-hash step rejects, or the backend's [_set] rejects or
    throws, [set] emits one warning carrying the reason and resolves; the
    value it resolves to is [undefined], not a boolean. *)
Theorem set_failure_is_caught {St : Type}
  (self : BcryptCache.backend St) (hash token : string) (w w' : world St)
  (err : exn) :
  BcryptCache._hash self token w = (Rejected err, w') \/
  (exists r w1,
      BcryptCache._hash self token w = (Fulfilled r, w1) /\
      (BcryptCache._set self (md5 hash) r w1 = (Rejected err, w') \/
       BcryptCache._set self (md5 hash) r w1 = (Thrown err, w'))) ->
  BcryptCache.set self (Some hash) (Some token) w
  = (Fulfilled Undefined,
     emit (Warn (Error "Failed add hash to the cache") (Some err)) w').
Proof. apply set_failed. Qed.

Lemma set_failure_is_caught_witness :
  BcryptCache.set Fixture.redis_backend
    (Some Fixture.tokenHash) (Some Fixture.token) (Fixture.fresh_redis false)
  = (Fulfilled Undefined,
     emit (Warn (Error "Failed add hash to the cache") (Some Fixture.closed))
       (Fixture.fresh_redis false)).
Proof.
  apply (set_failure_is_caught Fixture.redis_backend).
  right. exists (Str "$2a$04$token"), (Fixture.fresh_redis false).
  split; [reflexivity | left; vm_compute; reflexivity].
Defined.

(** C8, as the specification has it, fails: with the connection to the
    store closed, [_set] rejects and [set] resolves to a value that is not
    a boolean. *)
Lemma set_failure_is_not_boolean :
  fst (BcryptCache._set Fixture.redis_backend (md5 Fixture.tokenHash)
         (Str "$2a$04$token") (Fixture.fresh_redis false))
  = Rejected Fixture.closed
  /\ ~ (exists b : bool,
          fst (BcryptCache.set Fixture.redis_backend
                 (Some Fixture.tokenHash) (Some Fixture.token)
                 (Fixture.fresh_redis false))
          = Fulfilled (Bool b)).
Proof.
  split; [vm_compute; reflexivity |].
  intros [b Hb]. vm_compute in Hb. discriminate.
Qed.

(** C3, as the code has it.  Whatever [_get] and [_set] answer, rejections
    included, [get] and [set] resolve, and so does [compare] as long as the
    comparison it performs resolves; [remove] has no handler and rejects
    with the reason of a rejected [_remove].  (The backend's methods are
    taken to settle rather than throw synchronously.) *)
Theorem backend_failures_absorbed_except_remove {St : Type}
  (self : BcryptCache.backend St) (hash token : string) (w : world St)
  (Hget : never_throws (BcryptCache._get self (md5 hash)))
  (Hhash : never_throws (BcryptCache._hash self token))
  (Hcmp : forall v w1,
      BcryptCache.get self hash w = (Fulfilled v, w1) ->
      resolves
        (BcryptCache._compare self (if truthy v then v else Str hash) token)
        w1) :
  resolves (BcryptCache.get self hash) w
  /\ resolves (BcryptCache.set self (Some hash) (Some token)) w
  /\ resolves (BcryptCache.compare self hash token) w
  /\ (forall e w',
        BcryptCache._remove self (md5 hash) w = (Rejected e, w') ->
        BcryptCache.remove self hash w = (Rejected e, w')).
Proof.
  assert (Hg : resolves (BcryptCache.get self hash) w)
    by (apply get_resolves; intros e; apply Hget).
  repeat split; trivial.
  - apply set_resolves. intros e. apply Hhash.
  - destruct Hg as [v Hv].
    destruct (BcryptCache.get self hash w) as [r w1] eqn:E.
    cbn [fst] in Hv. subst r.
    destruct (Hcmp v w1 eq_refl) as [b Hb].
    destruct (BcryptCache._compare self (if truthy v then v else Str hash)
                token w1) as [r w2] eqn:Ec.
    cbn [fst] in Hb. subst r.
    unfold resolves. destruct (truthy v) eqn:Hv.
    + rewrite (compare_hit self hash token w v w1 E Hv).
      exists b. unfold callback. now rewrite Ec.
    + rewrite (compare_miss self hash token w v w1 E Hv).
      exists b. unfold tap, then_, yield_, then_, callback, resolve.
      rewrite Ec. destruct (is_true b); [| reflexivity].
      destruct (set_resolves self hash token w2) as [s Hs].
      { intros e. apply Hhash. }
      destruct (BcryptCache.set self (Some hash) (Some token) w2)
        as [r w3]. cbn [fst] in Hs. now subst r.
Qed.

Lemma backend_failures_absorbed_except_remove_witness :
  resolves (BcryptCache.get Fixture.redis_backend Fixture.tokenHash)
    (Fixture.fresh_redis false)
  /\ resolves (BcryptCache.set Fixture.redis_backend
                 (Some Fixture.tokenHash) (Some Fixture.token))
       (Fixture.fresh_redis false)
  /\ resolves (BcryptCache.compare Fixture.redis_backend
                 Fixture.tokenHash Fixture.token)
       (Fixture.fresh_redis false)
  /\ (forall e w',
        BcryptCache._remove Fixture.redis_backend (md5 Fixture.tokenHash)
          (Fixture.fresh_redis false) = (Rejected e, w') ->
        BcryptCache.remove Fixture.redis_backend Fixture.tokenHash
          (Fixture.fresh_redis false) = (Rejected e, w')).
Proof.
  apply (backend_failures_absorbed_except_remove Fixture.redis_backend).
  - apply redis_get_never_throws.
  - apply lift_never_throws.
  - intros v w1 E. vm_compute in E. injection E as <- <-.
    exists (Bool true). vm_compute. reflexivity.
Defined.

(** C3, as the specification has it, fails on [remove]: with the connection
    to the store closed, the delete command fails, [_remove] rejects, and
    so does [remove]. *)
Lemma remove_rejects_when_delete_fails :
  fst (BcryptCache._remove Fixture.redis_backend (md5 Fixture.tokenHash)
         (Fixture.fresh_redis false))
  = Rejected Fixture.closed
  /\ ~ resolves (BcryptCache.remove Fixture.redis_backend Fixture.tokenHash)
         (Fixture.fresh_redis false).
Proof.
  split; [vm_compute; reflexivity |].
  intros [v Hv]. vm_compute in Hv. discriminate.
Qed.

(** *** The comparison on a miss *)

Lemma base_authoritative lib hash token :
  authoritative lib (BcryptCache.base lib) hash token.
Proof. intros w. reflexivity. Qed.

Lemma redis_authoritative {C : Type} (cl : RedisCache.client C) lib hash token :
  authoritative lib (RedisCache.backend cl lib) hash token.
Proof. intros w. reflexivity. Qed.

(** The in-process backend sniffs the length of the hash: 32 characters
    mean a digest, anything else goes to bcrypt. *)
Lemma memory_authoritative lib hash token :
  ~ digest_shaped hash ->
  authoritative lib (MemoryCache.backend lib) hash token.
Proof.
  intros Hlen w. cbn. apply Nat.eqb_neq in Hlen. now rewrite Hlen.
Qed.

Lemma memory_digest_comparison lib hash token w :
  digest_shaped hash ->
  BcryptCache._compare (MemoryCache.backend lib) (Str hash) token w
  = (Fulfilled (Bool (String.eqb (md5 token) hash)), w).
Proof. intros Hlen. cbn. now rewrite Hlen. Qed.

Lemma memory_get_absent key m ws :
  MemoryCache.lodash.plain key = true ->
  MemoryCache.cache m !! key = None ->
  MemoryCache._get key (World m ws) = (Fulfilled Undefined, World m ws).
Proof.
  intros H E. rewrite (memory_get_cache_key key _ H). cbn. now rewrite E.
Qed.

Lemma compare_miss_false {St : Type} (self : BcryptCache.backend St)
  hash token w v w1 r w2 :
  BcryptCache.get self hash w = (Fulfilled v, w1) ->
  truthy v = false ->
  BcryptCache._compare self (Str hash) token w1 = (Fulfilled r, w2) ->
  is_true r = false ->
  BcryptCache.compare self hash token w = (Fulfilled r, w2).
Proof.
  intros E Hv Ec Hr. rewrite (compare_miss self hash token w v w1 E Hv).
  unfold tap, then_, yield_, then_, callback, resolve.
  now rewrite Ec, Hr.
Qed.

Lemma compare_miss_true {St : Type} (self : BcryptCache.backend St)
  hash token w v w1 w2 s w3 :
  BcryptCache.get self hash w = (Fulfilled v, w1) ->
  truthy v = false ->
  BcryptCache._compare self (Str hash) token w1 = (Fulfilled (Bool true), w2) ->
  BcryptCache.set self (Some hash) (Some token) w2 = (Fulfilled s, w3) ->
  BcryptCache.compare self hash token w = (Fulfilled (Bool true), w3).
Proof.
  intros E Hv Ec Es. rewrite (compare_miss self hash token w v w1 E Hv).
  unfold tap, then_, yield_, then_, callback, resolve.
  rewrite Ec. cbn [is_true]. now rewrite Es.
Qed.

Lemma compare_miss_error {St : Type} (self : BcryptCache.backend St)
  hash token w v w1 e w2 :
  BcryptCache.get self hash w = (Fulfilled v, w1) ->
  truthy v = false ->
  BcryptCache._compare self (Str hash) token w1 = (Rejected e, w2) \/
  BcryptCache._compare self (Str hash) token w1 = (Thrown e, w2) ->
  BcryptCache.compare self hash token w = (Rejected e, w2).
Proof.
  intros E Hv Ec. rewrite (compare_miss self hash token w v w1 E Hv).
  unfold tap, then_, yield_, then_, callback, resolve.
  destruct Ec as [Ec | Ec]; now rewrite Ec.
Qed.

(** C10.  When [_get] resolves to a falsy value, the empty string as much
    as [undefined], [compare] runs the comparison against the original
    hash; an answer other than [true] is returned as it is, an answer
    [true] is returned after [set] has stored the token, and a failing
    comparison rejects. *)
Theorem falsy_lookup_is_a_miss {St : Type}
  (self : BcryptCache.backend St) (hash token : string) (w w1 : world St)
  (v : jsval)
  (Hget : BcryptCache._get self (md5 hash) w = (Fulfilled v, w1))
  (Hfalsy : truthy v = false) :
  (forall r w2,
      BcryptCache._compare self (Str hash) token w1 = (Fulfilled r, w2) ->
      is_true r = false ->
      BcryptCache.compare self hash token w = (Fulfilled r, w2))
  /\ (forall w2 s w3,
        BcryptCache._compare self (Str hash) token w1
        = (Fulfilled (Bool true), w2) ->
        BcryptCache.set self (Some hash) (Some token) w2 = (Fulfilled s, w3) ->
        BcryptCache.compare self hash token w = (Fulfilled (Bool true), w3))
  /\ (forall e w2,
        BcryptCache._compare self (Str hash) token w1 = (Rejected e, w2) \/
        BcryptCache._compare self (Str hash) token w1 = (Thrown e, w2) ->
        BcryptCache.compare self hash token w = (Rejected e, w2)).
Proof.
  pose proof (get_hit self hash w v w1 Hget) as E.
  repeat split; intros.
  - eapply compare_miss_false; eauto.
  - eapply compare_miss_true; eauto.
  - eapply compare_miss_error; eauto.
Qed.

Lemma falsy_lookup_is_a_miss_witness :
  BcryptCache.compare Fixture.memory Fixture.tokenHash Fixture.token
    (Fixture.memory_holding (Str "") 1000 0)
  = (Fulfilled (Bool true),
     Fixture.memory_holding (Str (md5 Fixture.token)) 1000 0).
Proof.
  destruct (falsy_lookup_is_a_miss Fixture.memory Fixture.tokenHash
              Fixture.token (Fixture.memory_holding (Str "") 1000 0)
              (Fixture.memory_holding (Str "") 1000 0) (Str ""))
    as (_ & Htrue & _).
  - vm_compute. reflexivity.
  - reflexivity.
  - apply (Htrue (Fixture.memory_holding (Str "") 1000 0) (Bool true)).
    + vm_compute. reflexivity.
    + vm_compute. reflexivity.
Defined.

(** C1, as the code has it.  Take a lookup [get(h)] that finds no cached
    value and a backend whose comparison against the original hash is
    bcrypt's (the default [_compare]; the in-process backend when [h] is not
    32 characters long).  If bcrypt's comparison of [t] against [h] answers
    false, [compare(h, t)] returns false and leaves the backend as the
    lookup left it: [_hash] and [_set] are not called.  In the in-process
    backend with no entry under [md5(h)], the cache is unchanged and a
    later [get(h)] still reports [undefined]. *)
Theorem failed_comparison_is_not_cached {St : Type} (lib : Bcrypt)
  (self : BcryptCache.backend St) (hash token : string) (w w1 : world St)
  (v : jsval)
  (Hauth : authoritative lib self hash token)
  (Hfail : native_compare lib token (Str hash) = inr false)
  (Hget : BcryptCache.get self hash w = (Fulfilled v, w1))
  (Habsent : truthy v = false) :
  BcryptCache.compare self hash token w = (Fulfilled (Bool false), w1)
  /\ (forall m ws,
        ~ digest_shaped hash ->
        MemoryCache.cache m !! md5 hash = None ->
        BcryptCache.compare (MemoryCache.backend lib) hash token (World m ws)
        = (Fulfilled (Bool false), World m ws)
        /\ BcryptCache.get (MemoryCache.backend lib) hash (World m ws)
           = (Fulfilled Undefined, World m ws)).
Proof.
  assert (Hcore : forall S' (self' : BcryptCache.backend S') u u1 v',
             authoritative lib self' hash token ->
             BcryptCache.get self' hash u = (Fulfilled v', u1) ->
             truthy v' = false ->
             BcryptCache.compare self' hash token u
             = (Fulfilled (Bool false), u1)).
  { intros S' self' u u1 v' Ha Hg Hv.
    eapply compare_miss_false; eauto.
    rewrite Ha. unfold bcrypt.compare. now rewrite Hfail. }
  split; [now apply (Hcore St self w w1 v) |].
  intros m ws Hlen Hnone.
  assert (Hg : BcryptCache.get (MemoryCache.backend lib) hash (World m ws)
               = (Fulfilled Undefined, World m ws)).
  { apply get_hit. cbn. apply memory_get_absent; [apply md5_plain | easy]. }
  split; [| exact Hg].
  apply (Hcore _ _ _ _ Undefined); auto using memory_authoritative.
Qed.

Lemma failed_comparison_is_not_cached_witness :
  BcryptCache.compare Fixture.memory Fixture.tokenHash "wrongtoken"
    Fixture.fresh_memory
  = (Fulfilled (Bool false), Fixture.fresh_memory).
Proof.
  refine (proj1 (failed_comparison_is_not_cached Fixture.bcrypt_double
                   Fixture.memory Fixture.tokenHash "wrongtoken"
                   Fixture.fresh_memory Fixture.fresh_memory Undefined
                   _ _ _ _)).
  - apply memory_authoritative. vm_compute. discriminate.
  - vm_compute. reflexivity.
  - vm_compute. reflexivity.
  - reflexivity.
Defined.

(** C1, as the specification has it, fails in the in-process backend on a
    hash of 32 characters: with an empty cache, bcrypt's comparison of
    ["token"] against the 32-character [md5("token")] fails, yet [compare]
    answers true and writes an entry under the key of that hash. *)
Lemma digest_shaped_hash_is_cached :
  native_compare Fixture.bcrypt_double "token"
    (Str "94a08da1fecbb6e8b46990538c7b50b2") = inr false
  /\ fst (BcryptCache.get Fixture.memory "94a08da1fecbb6e8b46990538c7b50b2"
            Fixture.fresh_memory) = Fulfilled Undefined
  /\ fst (BcryptCache.compare Fixture.memory
            "94a08da1fecbb6e8b46990538c7b50b2" "token" Fixture.fresh_memory)
     = Fulfilled (Bool true)
  /\ MemoryCache.cache
       (store (snd (BcryptCache.compare Fixture.memory
                      "94a08da1fecbb6e8b46990538c7b50b2" "token"
                      Fixture.fresh_memory)))
     !! md5 "94a08da1fecbb6e8b46990538c7b50b2"
     = Some (MemoryCache.Entry (Str "94a08da1fecbb6e8b46990538c7b50b2") 1000).
Proof. repeat split; vm_compute; reflexivity. Qed.

(** C2, as the code has it.  When the lookup of [compare(h, t)] yields no
    cached value (a miss, or a failed lookup, which [get] turns into
    [undefined]) and the backend's comparison against the original hash is
    bcrypt's (the default [_compare]; the in-process backend when [h] is not
    32 characters long), [compare] settles as bcrypt's comparison of [t]
    against [h] does: it returns that boolean. *)
Theorem miss_uses_authoritative_comparison {St : Type} (lib : Bcrypt)
  (self : BcryptCache.backend St) (hash token : string) (w w1 : world St)
  (v : jsval)
  (Hauth : authoritative lib self hash token)
  (Hhash : never_throws (BcryptCache._hash self token))
  (Hget : BcryptCache.get self hash w = (Fulfilled v, w1))
  (Hmiss : truthy v = false) :
  fst (BcryptCache.compare self hash token w)
  = match native_compare lib token (Str hash) with
    | inr b => Fulfilled (Bool b)
    | inl e => Rejected e
    end.
Proof.
  pose proof (Hauth w1) as Ha. unfold bcrypt.compare, bcrypt.lift in Ha.
  destruct (native_compare lib token (Str hash)) as [e | [|]].
  - now rewrite (compare_miss_error self hash token w v w1 e w1 Hget Hmiss
                   (or_introl Ha)).
  - destruct (set_resolves self hash token w1) as [s Hs].
    { intros e. apply Hhash. }
    destruct (BcryptCache.set self (Some hash) (Some token) w1)
      as [r w3] eqn:Es. cbn [fst] in Hs. subst r.
    now rewrite (compare_miss_true self hash token w v w1 w1 s w3
                   Hget Hmiss Ha Es).
  - now rewrite (compare_miss_false self hash token w v w1 (Bool false) w1
                   Hget Hmiss Ha eq_refl).
Qed.

Lemma miss_uses_authoritative_comparison_witness :
  fst (BcryptCache.compare Fixture.redis_backend Fixture.tokenHash
         Fixture.token (Fixture.fresh_redis false))
  = Fulfilled (Bool true).
Proof.
  apply (miss_uses_authoritative_comparison Fixture.bcrypt_double
           Fixture.redis_backend Fixture.tokenHash Fixture.token
           (Fixture.fresh_redis false)
           (emit (Warn (Error "Failed to get data from the cache")
                    (Some Fixture.closed)) (Fixture.fresh_redis false))
           Undefined).
  - apply redis_authoritative.
  - apply lift_never_throws.
  - vm_compute. reflexivity.
  - reflexivity.
Defined.

(** C2, as the specification has it, fails in the in-process backend on a
    hash of 32 characters: with an empty cache the lookup misses, and
    [compare] answers by digest equality, true, where bcrypt's comparison
    of the token against that hash answers false. *)
Lemma digest_shaped_hash_skips_bcrypt :
  fst (BcryptCache.get Fixture.memory "3c6e0b8a9c15224a8228b9a98ca1531d"
         Fixture.fresh_memory) = Fulfilled Undefined
  /\ native_compare Fixture.bcrypt_double "key"
       (Str "3c6e0b8a9c15224a8228b9a98ca1531d") = inr false
  /\ fst (BcryptCache.compare Fixture.memory
            "3c6e0b8a9c15224a8228b9a98ca1531d" "key" Fixture.fresh_memory)
     = Fulfilled (Bool true).
Proof. repeat split; vm_compute; reflexivity. Qed.

(** *** The in-process backend *)

Lemma has_delete (c : gmap string MemoryCache.entry) key :
  MemoryCache.lodash.isKey key = true ->
  MemoryCache.lodash.has (delete key c) key = false.
Proof.
  intros H. rewrite (has_key _ _ H). apply bool_decide_eq_false.
  rewrite lookup_delete_eq. intros [x Hx]. discriminate.
Qed.

Lemma has_insert (c : gmap string MemoryCache.entry) key e :
  MemoryCache.lodash.has (<[key := e]> c) key = true.
Proof.
  unfold MemoryCache.lodash.has.
  apply orb_true_intro. left. apply bool_decide_eq_true.
  rewrite lookup_insert_eq. now exists e.
Qed.

(** What [_remove] leaves behind, whatever it answers. *)
Lemma memory_remove_state key m ws :
  snd (MemoryCache._remove key (World m ws))
  = World (MemoryCache.with_cache m (delete key (MemoryCache.cache m))) ws.
Proof. reflexivity. Qed.

Lemma memory_remove key m ws :
  MemoryCache.lodash.isKey key = true ->
  MemoryCache._remove key (World m ws)
  = (Fulfilled (Bool true),
     World (MemoryCache.with_cache m (delete key (MemoryCache.cache m))) ws).
Proof.
  intros H. unfold MemoryCache._remove. cbn. now rewrite (has_delete _ _ H).
Qed.

Lemma assign_key (c : gmap string MemoryCache.entry) key e :
  key <> "__proto__" -> MemoryCache.assign c key e = <[key := e]> c.
Proof.
  intros H. unfold MemoryCache.assign.
  now destruct (String.eqb_spec key "__proto__").
Qed.

Lemma md5_not_proto (s : string) : md5 s <> "__proto__".
Proof. intros E. pose proof (md5_length s) as H. now rewrite E in H. Qed.

Lemma memory_set key value m ws :
  key <> "__proto__" ->
  MemoryCache._set key value (World m ws)
  = (Fulfilled (Bool true),
     World (MemoryCache.with_cache m
              (<[key := MemoryCache.Entry value
                          (MemoryCache.now m + MemoryCache.ttl m)]>
                 (MemoryCache.cache m))) ws).
Proof.
  intros H. unfold MemoryCache._set. cbn.
  now rewrite (assign_key _ _ _ H), has_insert.
Qed.

Lemma memory_get_live key m ws e :
  MemoryCache.cache m !! key = Some e ->
  ~ MemoryCache.expiration e < MemoryCache.now m ->
  MemoryCache._get key (World m ws)
  = (Fulfilled (MemoryCache.value e),
     World (MemoryCache.with_cache m
              (<[key := MemoryCache.Entry (MemoryCache.value e)
                          (MemoryCache.now m + MemoryCache.ttl m)]>
                 (MemoryCache.cache m))) ws).
Proof.
  intros E Hlive. unfold MemoryCache._get. cbn. rewrite (get_own _ _ _ E).
  destruct (Z.ltb_spec (MemoryCache.expiration e) (MemoryCache.now m));
    [contradiction | reflexivity].
Qed.

(** On an expired entry [_get] calls the public [remove], which digests the
    key once more: the entry deleted is the one under [md5(key)]. *)
Lemma memory_get_expired key m ws e :
  MemoryCache.cache m !! key = Some e ->
  MemoryCache.expiration e < MemoryCache.now m ->
  MemoryCache._get key (World m ws)
  = (Fulfilled Undefined,
     World (MemoryCache.with_cache m
              (delete (md5 key) (MemoryCache.cache m))) ws).
Proof.
  intros E Hexp. unfold MemoryCache._get. cbn. rewrite (get_own _ _ _ E).
  destruct (Z.ltb_spec (MemoryCache.expiration e) (MemoryCache.now m));
    [reflexivity | lia].
Qed.

Lemma memory_inherits_remove lib hash w :
  BcryptCache.remove (MemoryCache.backend lib) hash w
  = MemoryCache.remove hash w.
Proof. reflexivity. Qed.

Lemma expired_read_keeps_entry key m ws e :
  MemoryCache.cache m !! key = Some e ->
  MemoryCache.expiration e < MemoryCache.now m ->
  md5 key <> key ->
  fst (MemoryCache._get key (World m ws)) = Fulfilled Undefined
  /\ MemoryCache.cache (store (snd (MemoryCache._get key (World m ws)))) !! key
     = Some e.
Proof.
  intros E Hexp Hne. rewrite (memory_get_expired key m ws e E Hexp). cbn.
  split; [reflexivity |]. now rewrite lookup_delete_ne.
Qed.

(** The sibling path: the periodic scan does delete what has expired. *)
Lemma prune_drops_expired key m e :
  MemoryCache.cache m !! key = Some e ->
  MemoryCache.expiration e < MemoryCache.now m ->
  MemoryCache.cache (MemoryCache._prune m) !! key = None.
Proof.
  intros E Hexp. unfold MemoryCache._prune. cbn.
  apply map_lookup_filter_None. right. intros e' E'. cbn.
  rewrite E in E'. injection E' as <-. intros H. now apply H.
Qed.

(** C5.  The scenario the claim describes, taken at the key of the
    test-suite's hash: the token is stored at 0 with a lifetime of one
    second and the clock then reads 2000, no scan having run, so that the
    entry expired at 1000.  [_get] reports [undefined], and the entry is
    still in the map afterwards; the same holds through the public [get]. *)
Theorem expired_entry_survives_read :
  Fixture.tick 2000
    (Fixture.after
       (BcryptCache.set Fixture.memory (Some Fixture.tokenHash)
          (Some Fixture.token))
       Fixture.fresh_memory)
  = Fixture.memory_holding (Str (md5 Fixture.token)) 1000 2000
  /\ MemoryCache.cache
       (store (Fixture.memory_holding (Str (md5 Fixture.token)) 1000 2000))
     !! md5 Fixture.tokenHash
     = Some (MemoryCache.Entry (Str (md5 Fixture.token)) 1000)
  /\ MemoryCache._get (md5 Fixture.tokenHash)
       (Fixture.memory_holding (Str (md5 Fixture.token)) 1000 2000)
     = (Fulfilled Undefined,
        Fixture.memory_holding (Str (md5 Fixture.token)) 1000 2000)
  /\ BcryptCache.get Fixture.memory Fixture.tokenHash
       (Fixture.memory_holding (Str (md5 Fixture.token)) 1000 2000)
     = (Fulfilled Undefined,
        Fixture.memory_holding (Str (md5 Fixture.token)) 1000 2000).
Proof. repeat split; vm_compute; reflexivity. Qed.

(** *** Expiration *)

Section RedisExpiry.
Context {C : Type} (cl : RedisCache.client C).

(** A read that finds a value sends the expiry-refresh command for the
    same key with the configured lifetime; the value read is returned
    whether or not the refresh succeeds. *)
Lemma redis_get_found key (r : RedisCache.t C) ws found c1 :
  RedisCache.getAsync cl (RedisCache.prefix r +:+ key) (RedisCache.conn r)
  = (inr found, c1) ->
  truthy found = true ->
  fst (RedisCache._get cl key (World r ws)) = Fulfilled found
  /\ RedisCache.conn (store (snd (RedisCache._get cl key (World r ws))))
     = snd (RedisCache.expireAsync cl (RedisCache.prefix r +:+ key)
              (RedisCache.ttl r) c1).
Proof.
  intros E Hv.
  unfold RedisCache._get, tap, then_, timeout, yield_, then_, catch_,
    callback, resolve, RedisCache.command.
  cbn [store warnings]. rewrite E. cbn [RedisCache.prefix RedisCache.ttl
    RedisCache.conn store warnings]. rewrite Hv.
  cbn [RedisCache.prefix RedisCache.ttl RedisCache.conn store warnings].
  destruct (RedisCache.expireAsync cl (RedisCache.prefix r +:+ key)
              (RedisCache.ttl r) c1) as [[e | v] c2]; cbn; auto.
Qed.

(** A read that finds nothing sends no refresh. *)
Lemma redis_get_not_found key (r : RedisCache.t C) ws found c1 :
  RedisCache.getAsync cl (RedisCache.prefix r +:+ key) (RedisCache.conn r)
  = (inr found, c1) ->
  truthy found = false ->
  RedisCache._get cl key (World r ws)
  = (Fulfilled found,
     World (RedisCache.Make (RedisCache.ttl r) (RedisCache.prefix r) c1) ws).
Proof.
  intros E Hv.
  unfold RedisCache._get, tap, then_, timeout, yield_, then_, catch_,
    callback, resolve, RedisCache.command.
  cbn [store warnings]. rewrite E. now rewrite Hv.
Qed.

Lemma redis_set_sends_setex key value (r : RedisCache.t C) ws :
  RedisCache.conn (store (snd (RedisCache._set cl key value (World r ws))))
  = snd (RedisCache.setexAsync cl (RedisCache.prefix r +:+ key)
           (RedisCache.ttl r) value (RedisCache.conn r)).
Proof.
  unfold RedisCache._set, then_, timeout, callback, resolve,
    RedisCache.command.
  cbn [store warnings].
  destruct (RedisCache.setexAsync cl (RedisCache.prefix r +:+ key)
              (RedisCache.ttl r) value (RedisCache.conn r))
    as [[e | v] c1]; reflexivity.
Qed.

End RedisExpiry.

(** On the stand-in store: after a read that finds the key, its deadline is
    the clock plus the lifetime; so it is after a write. *)
Lemma fake_redis_read_resets_deadline key (r : RedisCache.t Fixture.redis)
  ws v deadline :
  Fixture.connected (RedisCache.conn r) = true ->
  Fixture.live (RedisCache.conn r) (RedisCache.prefix r +:+ key)
  = Some (v, deadline) ->
  truthy v = true ->
  fst (RedisCache._get Fixture.fake_client key (World r ws)) = Fulfilled v
  /\ Fixture.db (RedisCache.conn
                   (store (snd (RedisCache._get Fixture.fake_client key
                                  (World r ws)))))
     !! (RedisCache.prefix r +:+ key)
     = Some (v, Fixture.time (RedisCache.conn r) + 1000 * RedisCache.ttl r).
Proof.
  intros Hup Hlive Hv.
  destruct (redis_get_found Fixture.fake_client key r ws v (RedisCache.conn r))
    as [H1 H2]; trivial.
  { cbn. now rewrite Hup, Hlive. }
  split; [exact H1 |]. rewrite H2. cbn. rewrite Hup, Hlive. cbn.
  apply lookup_insert_eq.
Qed.

Lemma fake_redis_write_sets_deadline key value (r : RedisCache.t Fixture.redis)
  ws :
  Fixture.connected (RedisCache.conn r) = true ->
  Fixture.db (RedisCache.conn
                (store (snd (RedisCache._set Fixture.fake_client key value
                               (World r ws)))))
  !! (RedisCache.prefix r +:+ key)
  = Some (value, Fixture.time (RedisCache.conn r) + 1000 * RedisCache.ttl r).
Proof.
  intros Hup. rewrite redis_set_sends_setex. cbn. rewrite Hup. cbn.
  apply lookup_insert_eq.
Qed.

(** When the store serves the read but not the refresh, the read succeeds
    and the key keeps the deadline it had: written at 0 with a lifetime of
    one second and read at 900, the key still expires at 1000, not at
    1900, and a lookup at 1000 finds nothing. *)
Lemma failed_refresh_leaves_lifetime :
  fst (RedisCache._get Faults.no_expire (md5 Fixture.tokenHash)
         (World (Fixture.redis_holding (Str "$2a$04$token") 1000 900) []))
  = Fulfilled (Str "$2a$04$token")
  /\ Fixture.db
       (RedisCache.conn
          (store (snd (RedisCache._get Faults.no_expire
                         (md5 Fixture.tokenHash)
                         (World (Fixture.redis_holding (Str "$2a$04$token")
                                   1000 900) [])))))
     !! ("bcrypt-cache:" +:+ md5 Fixture.tokenHash)
     = Some (Str "$2a$04$token", 1000)
  /\ 1000 <> 900 + 1000 * 1
  /\ fst (RedisCache._get Faults.no_expire (md5 Fixture.tokenHash)
            (Fixture.travel 100
               (snd (RedisCache._get Faults.no_expire
                       (md5 Fixture.tokenHash)
                       (World (Fixture.redis_holding (Str "$2a$04$token")
                                 1000 900) [])))))
     = Fulfilled Null.
Proof. repeat split; try (vm_compute; reflexivity). discriminate. Qed.

(** C6, as the code has it.  In the in-process backend a [get] that finds
    the entry of a hash unexpired returns its value and sets its expiration
    to the current time plus the configured lifetime, and a [set] stores
    the entry with exactly that expiration.  In the networked backend a
    read that finds a value sends the expiry command for that key with the
    configured lifetime and, when the store answers that command, returns
    the value without a warning; a write is a single set-with-expiry with
    the configured lifetime.  On a store that carries the commands out,
    the key's deadline after such a read, and after a write, is the
    store's clock plus the configured lifetime. *)
Theorem sliding_expiration {C : Type} (cl : RedisCache.client C)
  (lib : Bcrypt) (m : MemoryCache.t) (r : RedisCache.t C)
  (srv : RedisCache.t Fixture.redis) (ws : list warning)
  (hash token key : string) (value : jsval) :
  (forall e,
      MemoryCache.cache m !! md5 hash = Some e ->
      ~ MemoryCache.expiration e < MemoryCache.now m ->
      BcryptCache.get (MemoryCache.backend lib) hash (World m ws)
      = (Fulfilled (MemoryCache.value e),
         World (MemoryCache.with_cache m
                  (<[md5 hash := MemoryCache.Entry (MemoryCache.value e)
                                   (MemoryCache.now m + MemoryCache.ttl m)]>
                     (MemoryCache.cache m))) ws))
  /\ BcryptCache.set (MemoryCache.backend lib) (Some hash) (Some token)
       (World m ws)
     = (Fulfilled (Bool true),
        World (MemoryCache.with_cache m
                 (<[md5 hash := MemoryCache.Entry (Str (md5 token))
                                  (MemoryCache.now m + MemoryCache.ttl m)]>
                    (MemoryCache.cache m))) ws)
  /\ (forall found c1 reply c2,
         RedisCache.getAsync cl (RedisCache.prefix r +:+ key)
           (RedisCache.conn r) = (inr found, c1) ->
         truthy found = true ->
         RedisCache.expireAsync cl (RedisCache.prefix r +:+ key)
           (RedisCache.ttl r) c1 = (inr reply, c2) ->
         RedisCache._get cl key (World r ws)
         = (Fulfilled found,
            World (RedisCache.Make (RedisCache.ttl r) (RedisCache.prefix r)
                     c2) ws))
  /\ RedisCache.conn (store (snd (RedisCache._set cl key value (World r ws))))
     = snd (RedisCache.setexAsync cl (RedisCache.prefix r +:+ key)
              (RedisCache.ttl r) value (RedisCache.conn r))
  /\ (Fixture.connected (RedisCache.conn srv) = true ->
      (forall v deadline,
          Fixture.live (RedisCache.conn srv) (RedisCache.prefix srv +:+ key)
          = Some (v, deadline) ->
          truthy v = true ->
          fst (RedisCache._get Fixture.fake_client key (World srv ws))
          = Fulfilled v
          /\ Fixture.db
               (RedisCache.conn
                  (store (snd (RedisCache._get Fixture.fake_client key
                                 (World srv ws)))))
             !! (RedisCache.prefix srv +:+ key)
             = Some (v, Fixture.time (RedisCache.conn srv)
                        + 1000 * RedisCache.ttl srv))
      /\ Fixture.db
           (RedisCache.conn
              (store (snd (RedisCache._set Fixture.fake_client key value
                             (World srv ws)))))
         !! (RedisCache.prefix srv +:+ key)
         = Some (value, Fixture.time (RedisCache.conn srv)
                        + 1000 * RedisCache.ttl srv)).
Proof.
  split; [| split; [| split; [| split]]].
  - intros e Hentry Hlive. apply get_hit.
    cbn [BcryptCache._get MemoryCache.backend].
    now apply memory_get_live.
  - apply (set_stored (MemoryCache.backend lib) hash token (World m ws)
             (Str (md5 token)) (World m ws)); [reflexivity |].
    cbn [BcryptCache._set MemoryCache.backend].
    apply memory_set, md5_not_proto.
  - intros found c1 reply c2 Hreply Hfound Hrefresh.
    unfold RedisCache._get, tap, then_, timeout, yield_, then_, catch_,
      callback, resolve, RedisCache.command.
    cbn [store warnings]. rewrite Hreply.
    cbn [RedisCache.prefix RedisCache.ttl RedisCache.conn store warnings].
    rewrite Hfound.
    cbn [RedisCache.prefix RedisCache.ttl RedisCache.conn store warnings].
    rewrite Hrefresh. reflexivity.
  - apply redis_set_sends_setex.
  - intros Hup. split.
    + intros v deadline Hlive Hv.
      now apply (fake_redis_read_resets_deadline key srv ws v deadline).
    + now apply fake_redis_write_sets_deadline.
Qed.

(** The test-suite's scenario on both backends: written at 0 with a
    lifetime of one second, read at 900, the entry then expires at 1900. *)
Lemma sliding_expiration_witness :
  BcryptCache.get Fixture.memory Fixture.tokenHash
    (Fixture.memory_holding (Str (md5 Fixture.token)) 1000 900)
  = (Fulfilled (Str (md5 Fixture.token)),
     Fixture.memory_holding (Str (md5 Fixture.token)) 1900 900)
  /\ Fixture.db
       (RedisCache.conn
          (store (snd (RedisCache._get Fixture.fake_client
                         (md5 Fixture.tokenHash)
                         (World (Fixture.redis_holding (Str "$2a$04$token")
                                   1000 900) [])))))
     !! ("bcrypt-cache:" +:+ md5 Fixture.tokenHash)
     = Some (Str "$2a$04$token", 1900).
Proof.
  destruct (sliding_expiration Fixture.fake_client Fixture.bcrypt_double
              (store (Fixture.memory_holding (Str (md5 Fixture.token))
                        1000 900))
              (Fixture.redis_holding (Str "$2a$04$token") 1000 900)
              (Fixture.redis_holding (Str "$2a$04$token") 1000 900) []
              Fixture.tokenHash Fixture.token (md5 Fixture.tokenHash)
              (Str "$2a$04$token"))
    as (Hread & _ & _ & _ & Hstore).
  split.
  - etransitivity.
    + apply (Hread (MemoryCache.Entry (Str (md5 Fixture.token)) 1000)).
      * vm_compute. reflexivity.
      * vm_compute. discriminate.
    + vm_compute. reflexivity.
  - destruct (Hstore eq_refl) as [Hrefresh _].
    destruct (Hrefresh (Str "$2a$04$token") 1000) as [_ Hdeadline].
    + vm_compute. reflexivity.
    + reflexivity.
    + etransitivity; [exact Hdeadline |]. vm_compute. reflexivity.
Defined.

(** *** Removal *)

(** [_.has] follows a key that spells a path.  With an entry under [K],
    the keys [K + '.value'] and ['[' + K + ']'] name no property of the
    cache, so that [_remove] has nothing to delete, yet [_.has] finds the
    entry's [value] and the entry itself at the end of the path: [_remove]
    answers false and leaves the cache as it was. *)
Lemma remove_answers_false_on_a_path :
  MemoryCache.cache
    (store (Fixture.memory_holding (Str (md5 Fixture.token)) 1000 0))
  !! (md5 Fixture.tokenHash +:+ ".value") = None
  /\ MemoryCache._remove (md5 Fixture.tokenHash +:+ ".value")
       (Fixture.memory_holding (Str (md5 Fixture.token)) 1000 0)
     = (Fulfilled (Bool false),
        Fixture.memory_holding (Str (md5 Fixture.token)) 1000 0)
  /\ MemoryCache._remove ("[" +:+ md5 Fixture.tokenHash +:+ "]")
       (Fixture.memory_holding (Str (md5 Fixture.token)) 1000 0)
     = (Fulfilled (Bool false),
        Fixture.memory_holding (Str (md5 Fixture.token)) 1000 0).
Proof. repeat split; vm_compute; reflexivity. Qed.

(** C9, as the code has it.  In the in-process backend, on every key that
    spells no property path (no dot, and no opening bracket with a closing
    one after it), [_remove] answers true whether the key is present or
    absent, leaves the key absent, and answers true again when repeated;
    the digest of a hash is such a key, and the public [remove] answers
    true twice in a row.  In the networked backend [_remove] answers true
    on every key to any reply of the delete command, whether it reports
    one key deleted or none, on the first call and on the second. *)
Theorem remove_is_idempotent {C : Type} (cl : RedisCache.client C)
  (lib : Bcrypt) (m : MemoryCache.t) (r : RedisCache.t C)
  (ws : list warning) (key hash : string) :
  (MemoryCache.lodash.isKey key = true ->
   fst (MemoryCache._remove key (World m ws)) = Fulfilled (Bool true)
   /\ MemoryCache.cache (store (snd (MemoryCache._remove key (World m ws))))
      !! key = None
   /\ fst (MemoryCache._remove key
             (snd (MemoryCache._remove key (World m ws))))
      = Fulfilled (Bool true))
  /\ MemoryCache.lodash.isKey (md5 hash) = true
  /\ (fst (BcryptCache.remove (MemoryCache.backend lib) hash (World m ws))
      = Fulfilled (Bool true)
      /\ fst (BcryptCache.remove (MemoryCache.backend lib) hash
                (snd (BcryptCache.remove (MemoryCache.backend lib) hash
                        (World m ws))))
         = Fulfilled (Bool true))
  /\ (forall reply1 reply2 c1 c2,
         RedisCache.delAsync cl (RedisCache.prefix r +:+ key)
           (RedisCache.conn r) = (inr reply1, c1) ->
         RedisCache.delAsync cl (RedisCache.prefix r +:+ key) c1
         = (inr reply2, c2) ->
         fst (RedisCache._remove cl key (World r ws)) = Fulfilled (Bool true)
         /\ fst (RedisCache._remove cl key
                   (snd (RedisCache._remove cl key (World r ws))))
            = Fulfilled (Bool true)).
Proof.
  pose proof (md5_is_key hash) as Hdigest.
  split; [| split; [exact Hdigest | split]].
  - intros Hkey. rewrite (memory_remove _ _ _ Hkey). cbn [fst snd store].
    repeat split;
      [apply lookup_delete_eq | now rewrite (memory_remove _ _ _ Hkey)].
  - unfold BcryptCache.remove. cbn [BcryptCache._remove MemoryCache.backend].
    rewrite (memory_remove _ _ _ Hdigest). cbn [fst snd].
    now rewrite (memory_remove _ _ _ Hdigest).
  - intros reply1 reply2 c1 c2 Hdel1 Hdel2.
    rewrite (redis_remove_replied cl key r ws reply1 c1 Hdel1).
    split; [reflexivity |]. cbn [snd].
    now rewrite (redis_remove_replied cl key
                   (RedisCache.Make (RedisCache.ttl r) (RedisCache.prefix r) c1)
                   ws reply2 c2 Hdel2).
Qed.

(** On the key of the test-suite's hash: the in-process [_remove] answers
    true with the entry there; on the stand-in store the first delete finds
    the key and the second does not, and both removals answer true. *)
Lemma remove_is_idempotent_witness :
  fst (MemoryCache._remove (md5 Fixture.tokenHash)
         (Fixture.memory_holding (Str (md5 Fixture.token)) 1000 0))
  = Fulfilled (Bool true)
  /\ RedisCache.delAsync Fixture.fake_client
       ("bcrypt-cache:" +:+ md5 Fixture.tokenHash)
       (RedisCache.conn (Fixture.redis_holding (Str "$2a$04$token") 1000 0))
     = (inr (Num 1), Fixture.Redis ∅ 0 true)
  /\ RedisCache.delAsync Fixture.fake_client
       ("bcrypt-cache:" +:+ md5 Fixture.tokenHash) (Fixture.Redis ∅ 0 true)
     = (inr (Num 0), Fixture.Redis ∅ 0 true)
  /\ fst (RedisCache._remove Fixture.fake_client (md5 Fixture.tokenHash)
            (World (Fixture.redis_holding (Str "$2a$04$token") 1000 0) []))
     = Fulfilled (Bool true)
  /\ fst (RedisCache._remove Fixture.fake_client (md5 Fixture.tokenHash)
            (snd (RedisCache._remove Fixture.fake_client
                    (md5 Fixture.tokenHash)
                    (World (Fixture.redis_holding (Str "$2a$04$token") 1000 0)
                       []))))
     = Fulfilled (Bool true).
Proof.
  assert (H1 : RedisCache.delAsync Fixture.fake_client
                 ("bcrypt-cache:" +:+ md5 Fixture.tokenHash)
                 (RedisCache.conn
                    (Fixture.redis_holding (Str "$2a$04$token") 1000 0))
               = (inr (Num 1), Fixture.Redis ∅ 0 true))
    by (vm_compute; reflexivity).
  assert (H2 : RedisCache.delAsync Fixture.fake_client
                 ("bcrypt-cache:" +:+ md5 Fixture.tokenHash)
                 (Fixture.Redis ∅ 0 true)
               = (inr (Num 0), Fixture.Redis ∅ 0 true))
    by (vm_compute; reflexivity).
  destruct (remove_is_idempotent Fixture.fake_client Fixture.bcrypt_double
              (store (Fixture.memory_holding (Str (md5 Fixture.token))
                        1000 0))
              (Fixture.redis_holding (Str "$2a$04$token") 1000 0)
              [] (md5 Fixture.tokenHash) Fixture.tokenHash)
    as (Hmemory & _ & _ & Hredis).
  split; [| split; [exact H1 | split; [exact H2 |]]].
  - apply Hmemory. vm_compute. reflexivity.
  - exact (Hredis (Num 1) (Num 0) (Fixture.Redis ∅ 0 true)
             (Fixture.Redis ∅ 0 true) H1 H2).
Defined.

(** *** Cache keys *)

(** Whatever the five methods of a backend respect, when handed the digest
    of [hash], the four public operations on [hash] respect. *)
Section Respects.
Context {St : Type} (R : world St -> world St -> Prop).
Hypothesis R_refl : forall w, R w w.
Hypothesis R_trans : forall a b c, R a b -> R b c -> R a c.
Hypothesis R_emit : forall x w, R w (emit x w).







Context (self : BcryptCache.backend St) (hash : string).
Hypothesis R_get : respects R (BcryptCache._get self (md5 hash)).
Hypothesis R_set : forall v, respects R (BcryptCache._set self (md5 hash) v).
Hypothesis R_remove : respects R (BcryptCache._remove self (md5 hash)).
Hypothesis R_hash : forall value, respects R (BcryptCache._hash self value).
Hypothesis R_compare :
  forall h value, respects R (BcryptCache._compare self h value).



Lemma respects_remove : respects R (BcryptCache.remove self hash).
Proof. exact R_remove. Qed.


End Respects.

(** Exposing the method a backend record holds. *)
Ltac method :=
  intros;
  cbn [BcryptCache._get BcryptCache._set BcryptCache._remove
       BcryptCache._hash BcryptCache._compare
       MemoryCache.backend].

(** The keys of the in-process cache. *)
Section MemoryKeys.
Context (lib : Bcrypt) (key : string).









End MemoryKeys.











(** The key the in-process [_get] has [_remove] delete.  With a lifetime
    of one second,
    a token is stored for the test-suite's hash at 0 and another, at
    1500, for a second hash, which is the digest of the first; at 2000 the
    first entry has expired and the second has not.  [get] on the first
    hash reports [undefined] and, through the public [remove], has
    [_remove] delete the key that is the digest of its own key, the digest
    of the digest of the hash: the expired entry stays where it is, under
    the digest of the hash, and the live entry of the second hash is gone,
    so that a lookup that found it before finds nothing after. *)
Example expired_read_removes_digest_of_key :
  Session.run Fixture.bcrypt_double
    [Session.Put (Some Fixture.tokenHash) (Some Fixture.token);
     Session.Tick 1500;
     Session.Put (Some (md5 Fixture.tokenHash)) (Some "other");
     Session.Tick 500]
    Fixture.fresh_memory
  = World (MemoryCache.Make 1000 10000
             (<[md5 (md5 Fixture.tokenHash)
                := MemoryCache.Entry (Str (md5 "other")) 2500]>
                {[ md5 Fixture.tokenHash
                   := MemoryCache.Entry (Str (md5 Fixture.token)) 1000 ]})
             2000) []
  /\ fst (BcryptCache.get Fixture.memory (md5 Fixture.tokenHash)
            (World (MemoryCache.Make 1000 10000
                      (<[md5 (md5 Fixture.tokenHash)
                         := MemoryCache.Entry (Str (md5 "other")) 2500]>
                         {[ md5 Fixture.tokenHash
                            := MemoryCache.Entry (Str (md5 Fixture.token))
                                 1000 ]})
                      2000) []))
     = Fulfilled (Str (md5 "other"))
  /\ BcryptCache.get Fixture.memory Fixture.tokenHash
       (World (MemoryCache.Make 1000 10000
                 (<[md5 (md5 Fixture.tokenHash)
                    := MemoryCache.Entry (Str (md5 "other")) 2500]>
                    {[ md5 Fixture.tokenHash
                       := MemoryCache.Entry (Str (md5 Fixture.token))
                            1000 ]})
                 2000) [])
     = (Fulfilled Undefined,
        Fixture.memory_holding (Str (md5 Fixture.token)) 1000 2000)
  /\ fst (BcryptCache.get Fixture.memory (md5 Fixture.tokenHash)
            (Fixture.memory_holding (Str (md5 Fixture.token)) 1000 2000))
     = Fulfilled Undefined.
Proof. repeat split; vm_compute; reflexivity. Qed.

(** ** Further properties of the backends *)

(** *** The public operations over the in-process backend *)

Lemma memory_get_public lib hash w :
  BcryptCache.get (MemoryCache.backend lib) hash w
  = MemoryCache._get (md5 hash) w.
Proof.
  unfold BcryptCache.get, catch_. method.
  destruct w as [m ws]. rewrite (memory_get_cache_key _ _ (md5_plain hash)).
  cbn [store].
  destruct (MemoryCache.cache m !! md5 hash) as [e |]; [| reflexivity].
  destruct (MemoryCache.expiration e <? MemoryCache.now m); reflexivity.
Qed.

Lemma memory_set_public lib hash token m ws :
  BcryptCache.set (MemoryCache.backend lib) (Some hash) (Some token)
    (World m ws)
  = (Fulfilled (Bool true),
     World (MemoryCache.with_cache m
              (<[md5 hash := MemoryCache.Entry (Str (md5 token))
                               (MemoryCache.now m + MemoryCache.ttl m)]>
                 (MemoryCache.cache m))) ws).
Proof.
  apply (set_stored _ hash token (World m ws) (Str (md5 token)) (World m ws)).
  - reflexivity.
  - apply memory_set, md5_not_proto.
Qed.

Lemma memory_compare_pure lib h value w :
  snd (MemoryCache._compare lib h value w) = w.
Proof.
  unfold MemoryCache._compare, BcryptCache.prototype._compare,
    bcrypt.compare, bcrypt.lift.
  destruct h as [| | b | n | s]; try reflexivity.
  - destruct (native_compare lib value (Bool b)); reflexivity.
  - destruct (native_compare lib value (Num n)); reflexivity.
  - destruct (String.length s =? 32)%nat; [reflexivity |].
    destruct (native_compare lib value (Str s)); reflexivity.
Qed.

Lemma md5_truthy s : truthy (Str (md5 s)) = true.
Proof.
  cbn. destruct (String.eqb_spec (md5 s) "") as [E | E]; [| reflexivity].
  pose proof (md5_length s) as H. rewrite E in H. discriminate.
Qed.

Lemma digest_truthy s : digest_shaped s -> truthy (Str s) = true.
Proof.
  intros H. cbn. destruct (String.eqb_spec s "") as [-> | E];
    [discriminate | reflexivity].
Qed.

(** The state [compare] leaves is the one its lookup left, or the one a
    [set] left after that lookup. *)
Lemma memory_compare_world lib hash token w :
  snd (BcryptCache.compare (MemoryCache.backend lib) hash token w)
  = snd (BcryptCache.get (MemoryCache.backend lib) hash w)
  \/ snd (BcryptCache.compare (MemoryCache.backend lib) hash token w)
     = snd (BcryptCache.set (MemoryCache.backend lib) (Some hash) (Some token)
              (snd (BcryptCache.get (MemoryCache.backend lib) hash w))).
Proof.
  destruct (BcryptCache.get (MemoryCache.backend lib) hash w) as [r w1] eqn:E.
  assert (Hr : exists v, r = Fulfilled v).
  { rewrite memory_get_public in E. destruct w as [m ws].
    rewrite (memory_get_cache_key _ _ (md5_plain hash)) in E.
    cbn [store] in E.
    destruct (MemoryCache.cache m !! md5 hash) as [e |].
    - destruct (MemoryCache.expiration e <? MemoryCache.now m);
        injection E as <- _; eauto.
    - injection E as <- _; eauto. }
  destruct Hr as [v ->]. cbn [snd].
  destruct (truthy v) eqn:Hv.
  - left. rewrite (compare_hit _ hash token w v w1 E Hv). method.
    pose proof (memory_compare_pure lib v token w1) as Hp.
    unfold callback.
    destruct (MemoryCache._compare lib v token w1) as [[x | x | x] w2];
      exact Hp.
  - rewrite (compare_miss _ hash token w v w1 E Hv). method.
    pose proof (memory_compare_pure lib (Str hash) token w1) as Hp.
    unfold tap, then_, yield_, then_, callback, resolve.
    destruct (MemoryCache._compare lib (Str hash) token w1)
      as [[x | x | x] w2]; cbn [snd] in Hp; subst w2; auto.
    destruct (is_true x); [right | left; reflexivity].
    destruct (BcryptCache.set (MemoryCache.backend lib) (Some hash)
                (Some token) w1) as [[y | y | y] w3]; reflexivity.
Qed.

(** X1.  An entry stored by [set] is read back by [get] as the digest of
    the token for as long as no more than the lifetime has passed since the
    write, and is reported absent from then on. *)
Theorem memory_entry_lifetime (lib : Bcrypt) (hash token : string)
  (m : MemoryCache.t) (ws : list warning) (elapsed : Z) :
  fst (BcryptCache.get (MemoryCache.backend lib) hash
         (Session.run lib
            [Session.Put (Some hash) (Some token); Session.Tick elapsed]
            (World m ws)))
  = if elapsed <=? MemoryCache.ttl m
    then Fulfilled (Str (md5 token))
    else Fulfilled Undefined.
Proof.
  unfold Session.run. cbn [fold_left Session.step].
  rewrite memory_set_public. cbn [snd store warnings].
  rewrite memory_get_public.
  rewrite (memory_get_cache_key _ _ (md5_plain hash)).
  cbn [store MemoryCache.tick MemoryCache.cache MemoryCache.with_cache
       MemoryCache.now MemoryCache.ttl].
  rewrite lookup_insert_eq. cbn [MemoryCache.expiration].
  destruct (Z.leb_spec elapsed (MemoryCache.ttl m)) as [H | H].
  - destruct (Z.ltb_spec (MemoryCache.now m + MemoryCache.ttl m)
                (MemoryCache.now m + elapsed)); [lia | reflexivity].
  - destruct (Z.ltb_spec (MemoryCache.now m + MemoryCache.ttl m)
                (MemoryCache.now m + elapsed)); [reflexivity | lia].
Qed.

Lemma run_app lib events events' w :
  Session.run lib (events ++ events') w
  = Session.run lib events' (Session.run lib events w).
Proof. unfold Session.run. apply fold_left_app. Qed.

(** One read of a fresh entry, no later than a lifetime after its last
    refresh, leaves it fresh again. *)
Lemma read_refreshes lib hash v m ws gap :
  MemoryCache.cache m !! md5 hash
  = Some (MemoryCache.Entry v (MemoryCache.now m + MemoryCache.ttl m)) ->
  gap <= MemoryCache.ttl m ->
  exists m',
    Session.run lib [Session.Tick gap; Session.Get hash] (World m ws)
    = World m' ws
    /\ MemoryCache.ttl m' = MemoryCache.ttl m
    /\ MemoryCache.cache m' !! md5 hash
       = Some (MemoryCache.Entry v (MemoryCache.now m' + MemoryCache.ttl m')).
Proof.
  intros E Hgap. unfold Session.run.
  cbn [fold_left Session.step store warnings].
  rewrite memory_get_public.
  rewrite (memory_get_live (md5 hash) (MemoryCache.tick gap m) ws
             (MemoryCache.Entry v (MemoryCache.now m + MemoryCache.ttl m))).
  - cbn [snd]. eexists. split; [reflexivity |]. split; [reflexivity |].
    cbn. apply lookup_insert_eq.
  - exact E.
  - cbn. lia.
Qed.

Lemma reads_keep_fresh lib hash v gaps : forall m ws,
  MemoryCache.cache m !! md5 hash
  = Some (MemoryCache.Entry v (MemoryCache.now m + MemoryCache.ttl m)) ->
  Forall (fun gap => gap <= MemoryCache.ttl m) gaps ->
  exists m',
    Session.run lib (reads_at hash gaps) (World m ws) = World m' ws
    /\ MemoryCache.ttl m' = MemoryCache.ttl m
    /\ MemoryCache.cache m' !! md5 hash
       = Some (MemoryCache.Entry v (MemoryCache.now m' + MemoryCache.ttl m')).
Proof.
  induction gaps as [| gap gaps IH]; intros m ws E Hgaps.
  - exists m. auto.
  - apply Forall_cons in Hgaps as [Hgap Hgaps].
    destruct (read_refreshes lib hash v m ws gap E Hgap)
      as (m1 & Hrun & Httl & E1).
    change (reads_at hash (gap :: gaps))
      with (([Session.Tick gap; Session.Get hash] ++ reads_at hash gaps)%list).
    rewrite run_app, Hrun.
    destruct (IH m1 ws E1) as (m2 & Hrun2 & Httl2 & E2).
    { now rewrite Httl. }
    exists m2. split; [exact Hrun2 |]. split; [congruence | exact E2].
Qed.

(** X2.  Sliding expiration keeps an entry alive: after [set], however many
    reads follow one another at gaps of at most the lifetime, a further read
    at such a gap still returns the digest of the token. *)
Theorem reads_keep_entry_alive (lib : Bcrypt) (hash token : string)
  (m : MemoryCache.t) (ws : list warning) (gaps : list Z) (gap : Z)
  (Hgaps : Forall (fun g => g <= MemoryCache.ttl m) gaps)
  (Hgap : gap <= MemoryCache.ttl m) :
  fst (BcryptCache.get (MemoryCache.backend lib) hash
         (Session.run lib
            (Session.Put (Some hash) (Some token)
               :: reads_at hash gaps ++ [Session.Tick gap])
            (World m ws)))
  = Fulfilled (Str (md5 token)).
Proof.
  change (Session.Put (Some hash) (Some token)
            :: reads_at hash gaps ++ [Session.Tick gap])
    with (([Session.Put (Some hash) (Some token)]
             ++ reads_at hash gaps ++ [Session.Tick gap])%list).
  rewrite !run_app.
  unfold Session.run at 3. cbn [fold_left Session.step].
  rewrite memory_set_public. cbn [snd].
  destruct (reads_keep_fresh lib hash (Str (md5 token)) gaps
              (MemoryCache.with_cache m
                 (<[md5 hash := MemoryCache.Entry (Str (md5 token))
                                  (MemoryCache.now m + MemoryCache.ttl m)]>
                    (MemoryCache.cache m))) ws)
    as (m' & Hrun & Httl & E).
  - cbn. apply lookup_insert_eq.
  - exact Hgaps.
  - rewrite Hrun. unfold Session.run. cbn [fold_left Session.step store
      warnings].
    rewrite memory_get_public.
    rewrite (memory_get_live (md5 hash) (MemoryCache.tick gap m') ws
               (MemoryCache.Entry (Str (md5 token))
                  (MemoryCache.now m' + MemoryCache.ttl m'))).
    + reflexivity.
    + exact E.
    + cbn in *. lia.
Qed.

Lemma reads_keep_entry_alive_witness :
  fst (BcryptCache.get Fixture.memory "key"
         (Session.run Fixture.bcrypt_double
            (Session.Put (Some "key") (Some Fixture.token)
               :: reads_at "key" [900; 900; 1000] ++ [Session.Tick 1000])
            Fixture.fresh_memory))
  = Fulfilled (Str (md5 Fixture.token)).
Proof.
  apply (reads_keep_entry_alive Fixture.bcrypt_double "key" Fixture.token
           (store Fixture.fresh_memory) [] [900; 900; 1000] 1000).
  - repeat constructor; vm_compute; discriminate.
  - vm_compute. discriminate.
Defined.

(** *** The periodic scan *)

Lemma prune_lookup m k :
  MemoryCache.cache (MemoryCache._prune m) !! k
  = match MemoryCache.cache m !! k with
    | Some e =>
        if MemoryCache.expiration e <? MemoryCache.now m then None else Some e
    | None => None
    end.
Proof.
  unfold MemoryCache._prune. cbn.
  destruct (MemoryCache.cache m !! k) as [e |] eqn:E.
  - destruct (Z.ltb_spec (MemoryCache.expiration e) (MemoryCache.now m)).
    + apply map_lookup_filter_None. right. intros e' E' Hk. cbn in Hk.
      rewrite E in E'. injection E' as <-. contradiction.
    + apply map_lookup_filter_Some. split; [exact E |]. cbn. lia.
  - apply map_lookup_filter_None. now left.
Qed.

(** X3.  The scan deletes exactly the entries that have expired: an entry
    whose expiration is earlier than the present is gone afterwards, every
    other entry is kept as it was, nothing is added, and a second scan at
    the same time changes nothing more. *)
Theorem prune_removes_exactly_expired (m : MemoryCache.t) (k : string) :
  MemoryCache.cache (MemoryCache._prune m) !! k
  = match MemoryCache.cache m !! k with
    | Some e =>
        if MemoryCache.expiration e <? MemoryCache.now m then None else Some e
    | None => None
    end
  /\ MemoryCache._prune (MemoryCache._prune m) = MemoryCache._prune m.
Proof.
  split; [apply prune_lookup |].
  assert (Hc : MemoryCache.cache (MemoryCache._prune (MemoryCache._prune m))
               = MemoryCache.cache (MemoryCache._prune m)).
  { apply map_eq. intros i.
    rewrite (prune_lookup (MemoryCache._prune m) i), (prune_lookup m i).
    destruct (MemoryCache.cache m !! i) as [e |]; [| reflexivity].
    destruct (MemoryCache.expiration e <? MemoryCache.now m) eqn:H;
      [reflexivity |].
    change (MemoryCache.now (MemoryCache._prune m)) with (MemoryCache.now m).
    now rewrite H. }
  transitivity (MemoryCache.Make
                  (MemoryCache.ttl (MemoryCache._prune m))
                  (MemoryCache.pruneTimer (MemoryCache._prune m))
                  (MemoryCache.cache (MemoryCache._prune m))
                  (MemoryCache.now (MemoryCache._prune m))).
  - unfold MemoryCache._prune at 1. unfold MemoryCache.with_cache.
    f_equal. exact Hc.
  - reflexivity.
Qed.



Lemma memory_get_fulfilled lib hash w :
  exists v, fst (BcryptCache.get (MemoryCache.backend lib) hash w)
            = Fulfilled v.
Proof.
  rewrite memory_get_public, (memory_get_cache_key _ _ (md5_plain hash)).
  destruct (MemoryCache.cache (store w) !! md5 hash) as [e |]; [| now eexists].
  destruct (MemoryCache.expiration e <? MemoryCache.now (store w));
    now eexists.
Qed.


(** *** Writing, removing, and the other entries *)

Lemma memory_remove_public lib hash m ws :
  BcryptCache.remove (MemoryCache.backend lib) hash (World m ws)
  = (Fulfilled (Bool true),
     World (MemoryCache.with_cache m
              (delete (md5 hash) (MemoryCache.cache m))) ws).
Proof.
  unfold BcryptCache.remove. method. apply memory_remove, md5_is_key.
Qed.

(** X5.  [remove] undoes [set]: after both, [get] reports the hash absent.
    Neither touches the entry of any key other than the digest of the
    hash. *)
Theorem set_and_remove_are_local (lib : Bcrypt) (hash token : string)
  (m : MemoryCache.t) (ws : list warning) (other : string)
  (Hother : other <> md5 hash) :
  fst (BcryptCache.get (MemoryCache.backend lib) hash
         (Session.run lib
            [Session.Put (Some hash) (Some token); Session.Remove hash]
            (World m ws)))
  = Fulfilled Undefined
  /\ MemoryCache.cache
       (store (Session.run lib [Session.Put (Some hash) (Some token)]
                 (World m ws))) !! other
     = MemoryCache.cache m !! other
  /\ MemoryCache.cache
       (store (Session.run lib [Session.Remove hash] (World m ws))) !! other
     = MemoryCache.cache m !! other.
Proof.
  unfold Session.run. cbn [fold_left Session.step].
  rewrite memory_set_public. cbn [snd].
  rewrite !memory_remove_public. cbn [snd store].
  repeat split.
  - rewrite memory_get_public.
    rewrite memory_get_absent;
      [reflexivity | apply md5_plain | cbn; apply lookup_delete_eq].
  - cbn. now rewrite lookup_insert_ne by congruence.
  - cbn. now rewrite lookup_delete_ne by congruence.
Qed.

Lemma set_and_remove_are_local_witness :
  fst (BcryptCache.get Fixture.memory "key"
         (Session.run Fixture.bcrypt_double
            [Session.Put (Some "key") (Some Fixture.token);
             Session.Remove "key"]
            (Fixture.memory_holding (Str (md5 Fixture.token)) 1000 0)))
  = Fulfilled Undefined
  /\ MemoryCache.cache
       (store (Session.run Fixture.bcrypt_double
                 [Session.Remove "key"]
                 (Fixture.memory_holding (Str (md5 Fixture.token)) 1000 0)))
     !! md5 Fixture.tokenHash
     = Some (MemoryCache.Entry (Str (md5 Fixture.token)) 1000).
Proof.
  destruct (set_and_remove_are_local Fixture.bcrypt_double "key"
              Fixture.token
              (store (Fixture.memory_holding (Str (md5 Fixture.token)) 1000 0))
              [] (md5 Fixture.tokenHash))
    as (Hgone & _ & Hkept).
  - vm_compute. discriminate.
  - split; [exact Hgone |].
    etransitivity; [exact Hkept |]. vm_compute. reflexivity.
Defined.

(** *** Hits in the in-process backend *)

Lemma memory_hit lib hash token m ws e s :
  MemoryCache.cache m !! md5 hash = Some e ->
  ~ MemoryCache.expiration e < MemoryCache.now m ->
  MemoryCache.value e = Str s ->
  digest_shaped s ->
  BcryptCache.compare (MemoryCache.backend lib) hash token (World m ws)
  = (Fulfilled (Bool (String.eqb (md5 token) s)),
     World (MemoryCache.with_cache m
              (<[md5 hash := MemoryCache.Entry (Str s)
                               (MemoryCache.now m + MemoryCache.ttl m)]>
                 (MemoryCache.cache m))) ws).
Proof.
  intros E Hlive Hv Hs.
  rewrite (compare_hit _ hash token (World m ws) (Str s)
             (World (MemoryCache.with_cache m
                       (<[md5 hash := MemoryCache.Entry (Str s)
                                        (MemoryCache.now m
                                         + MemoryCache.ttl m)]>
                          (MemoryCache.cache m))) ws)).
  - unfold callback.
    now rewrite (memory_digest_comparison lib s token _ Hs).
  - rewrite memory_get_public.
    rewrite (memory_get_live (md5 hash) m ws e E Hlive). now rewrite Hv.
  - now apply digest_truthy.
Qed.

(** X6.  A hit in the in-process backend is decided by digest equality
    alone.  When the cache holds, unexpired, a digest-shaped string for the
    hash, [compare] answers whether the digest of the token equals it,
    whatever bcrypt would say, and refreshes the entry; nothing else
    changes. *)
Theorem memory_hit_is_digest_equality (lib : Bcrypt) (hash token : string)
  (m : MemoryCache.t) (ws : list warning) (e : MemoryCache.entry)
  (s : string)
  (Hentry : MemoryCache.cache m !! md5 hash = Some e)
  (Hlive : ~ MemoryCache.expiration e < MemoryCache.now m)
  (Hvalue : MemoryCache.value e = Str s)
  (Hshape : digest_shaped s) :
  BcryptCache.compare (MemoryCache.backend lib) hash token (World m ws)
  = (Fulfilled (Bool (String.eqb (md5 token) s)),
     World (MemoryCache.with_cache m
              (<[md5 hash := MemoryCache.Entry (Str s)
                               (MemoryCache.now m + MemoryCache.ttl m)]>
                 (MemoryCache.cache m))) ws).
Proof. now apply (memory_hit lib hash token m ws e s). Qed.

(** With the digest of ["token"] cached for the hash, the wrong token is
    turned down although the bcrypt at hand is not even asked. *)
Lemma memory_hit_is_digest_equality_witness :
  fst (BcryptCache.compare (MemoryCache.backend Faults.no_hash)
         Fixture.tokenHash "wrongtoken"
         (Fixture.memory_holding (Str (md5 Fixture.token)) 1000 0))
  = Fulfilled (Bool false).
Proof.
  refine (eq_trans
            (f_equal fst
               (memory_hit_is_digest_equality Faults.no_hash
                  Fixture.tokenHash "wrongtoken"
                  (store (Fixture.memory_holding (Str (md5 Fixture.token))
                            1000 0))
                  [] (MemoryCache.Entry (Str (md5 Fixture.token)) 1000)
                  (md5 Fixture.token) _ _ _ _)) _).
  - vm_compute. reflexivity.
  - vm_compute. discriminate.
  - reflexivity.
  - apply md5_digest_shaped.
  - vm_compute. reflexivity.
Defined.

(** X7.  Verify once, then answer from the cache.  On a hash that is not
    digest-shaped and has no entry, a [compare] that bcrypt accepts answers
    true and stores the digest of the token for one lifetime; a later
    [compare] of the same token within that lifetime answers true again,
    and a different token is accepted exactly when its digest is the same,
    both without consulting bcrypt. *)
Theorem verify_once_then_hit (lib lib' : Bcrypt) (hash token token' : string)
  (m : MemoryCache.t) (ws : list warning) (elapsed : Z)
  (Hraw : ~ digest_shaped hash)
  (Hnone : MemoryCache.cache m !! md5 hash = None)
  (Hok : native_compare lib token (Str hash) = inr true)
  (Hsoon : elapsed <= MemoryCache.ttl m) :
  BcryptCache.compare (MemoryCache.backend lib) hash token (World m ws)
  = (Fulfilled (Bool true),
     World (MemoryCache.with_cache m
              (<[md5 hash := MemoryCache.Entry (Str (md5 token))
                               (MemoryCache.now m + MemoryCache.ttl m)]>
                 (MemoryCache.cache m))) ws)
  /\ fst (BcryptCache.compare (MemoryCache.backend lib') hash token'
            (Session.run lib
               [Session.Compare hash token; Session.Tick elapsed]
               (World m ws)))
     = Fulfilled (Bool (String.eqb (md5 token') (md5 token))).
Proof.
  assert (Hfirst :
    BcryptCache.compare (MemoryCache.backend lib) hash token (World m ws)
    = (Fulfilled (Bool true),
       World (MemoryCache.with_cache m
                (<[md5 hash := MemoryCache.Entry (Str (md5 token))
                                 (MemoryCache.now m + MemoryCache.ttl m)]>
                   (MemoryCache.cache m))) ws)).
  { apply (compare_miss_true _ hash token (World m ws) Undefined (World m ws)
             (World m ws) (Bool true)).
    - rewrite memory_get_public.
      apply memory_get_absent; [apply md5_plain | exact Hnone].
    - reflexivity.
    - rewrite (memory_authoritative lib hash token Hraw).
      unfold bcrypt.compare, bcrypt.lift. now rewrite Hok.
    - apply memory_set_public. }
  split; [exact Hfirst |].
  unfold Session.run. cbn [fold_left Session.step]. rewrite Hfirst.
  cbn [snd store warnings].
  rewrite (memory_hit lib' hash token' _ ws
             (MemoryCache.Entry (Str (md5 token))
                (MemoryCache.now m + MemoryCache.ttl m))
             (md5 token)).
  - reflexivity.
  - cbn. apply lookup_insert_eq.
  - cbn. lia.
  - reflexivity.
  - apply md5_digest_shaped.
Qed.

Lemma verify_once_then_hit_witness :
  fst (BcryptCache.compare (MemoryCache.backend Faults.no_hash)
         Fixture.tokenHash Fixture.token
         (Session.run Fixture.bcrypt_double
            [Session.Compare Fixture.tokenHash Fixture.token;
             Session.Tick 1000]
            Fixture.fresh_memory))
  = Fulfilled (Bool true).
Proof.
  refine (eq_trans
            (proj2 (verify_once_then_hit Fixture.bcrypt_double Faults.no_hash
                      Fixture.tokenHash Fixture.token Fixture.token
                      (store Fixture.fresh_memory) [] 1000 _ _ _ _)) _).
  - vm_compute. discriminate.
  - reflexivity.
  - vm_compute. reflexivity.
  - vm_compute. discriminate.
  - now rewrite String.eqb_refl.
Defined.

(** *** Invariants of a session *)

(** What a lookup can leave under a key: what was there, or the same value
    with a fresh expiration. *)
Lemma memory_get_entries key m ws j e' :
  MemoryCache.cache (store (snd (MemoryCache._get key (World m ws)))) !! j
  = Some e' ->
  MemoryCache.cache m !! j = Some e'
  \/ exists e,
       MemoryCache.cache m !! j = Some e
       /\ e' = MemoryCache.Entry (MemoryCache.value e)
                 (MemoryCache.now m + MemoryCache.ttl m).
Proof.
  unfold MemoryCache._get. cbn [store].
  destruct (MemoryCache.lodash.get (MemoryCache.cache m) key)
    as [[stored e | v] |] eqn:E;
    [| destruct (truthy v); now left | now left].
  apply get_object in E.
  destruct (MemoryCache.expiration e <? MemoryCache.now m).
  - cbn. intros H. apply lookup_delete_Some in H as [_ H]. now left.
  - cbn. intros H. destruct (decide (stored = j)) as [<- | Hne].
    + rewrite lookup_insert_eq in H. injection H as <-. right. eauto.
    + rewrite lookup_insert_ne in H by exact Hne. now left.
Qed.

Lemma memory_get_clock key m ws :
  MemoryCache.now (store (snd (MemoryCache._get key (World m ws))))
  = MemoryCache.now m
  /\ MemoryCache.ttl (store (snd (MemoryCache._get key (World m ws))))
     = MemoryCache.ttl m
  /\ warnings (snd (MemoryCache._get key (World m ws))) = ws.
Proof.
  unfold MemoryCache._get. cbn [store].
  destruct (MemoryCache.lodash.get (MemoryCache.cache m) key)
    as [[stored e | v] |]; [| destruct (truthy v); now cbn | now cbn].
  destruct (MemoryCache.expiration e <? MemoryCache.now m); now cbn.
Qed.

(** A property of the cache kept by lookups, writes, removals and warnings
    is kept by every event that is not a tick or a scan. *)
Lemma step_preserves lib (P : world MemoryCache.t -> Prop) w e :
  (forall key w, P w -> P (snd (MemoryCache._get key w))) ->
  (forall hash token w,
      P w ->
      P (snd (BcryptCache.set (MemoryCache.backend lib) (Some hash)
                (Some token) w))) ->
  (forall key w, P w -> P (snd (MemoryCache._remove key w))) ->
  (forall x w, P w -> P (emit x w)) ->
  match e with
  | Session.Tick _ | Session.Prune => P w -> P (Session.step lib w e)
  | _ => True
  end ->
  P w -> P (Session.step lib w e).
Proof.
  intros Hget Hset Hrem Hwarn Hclock Hw.
  destruct e as [hash | hash token | hash | hash token | ms |];
    cbn [Session.step]; auto.
  - rewrite memory_get_public. now apply Hget.
  - destruct hash as [hash |], token as [token |];
      try (now apply Hset); now apply Hwarn.
  - now apply Hrem.
  - destruct (memory_compare_world lib hash token w) as [-> | ->].
    + rewrite memory_get_public. now apply Hget.
    + apply Hset. rewrite memory_get_public. now apply Hget.
Qed.

Lemma step_keeps_digest_values lib w e :
  digest_values w -> digest_values (Session.step lib w e).
Proof.
  apply step_preserves.
  - intros key [m ws] Hw j e' He'.
    destruct (memory_get_entries key m ws j e' He') as [H | (e0 & H & ->)].
    + exact (Hw j e' H).
    + exact (Hw j e0 H).
  - intros hash token [m ws] Hw j e'. rewrite memory_set_public. cbn.
    destruct (decide (md5 hash = j)) as [<- | Hne].
    + rewrite lookup_insert_eq. intros [= <-]. cbn. eauto.
    + rewrite lookup_insert_ne by exact Hne. apply Hw.
  - intros key [m ws] Hw j e'. rewrite memory_remove_state. cbn.
    intros H. apply lookup_delete_Some in H as [_ H]. exact (Hw j e' H).
  - intros x w' Hw. exact Hw.
  - destruct e as [h | h t | h | h t | ms |]; try exact I.
    + intros Hw. exact Hw.
    + intros Hw j e'. cbn [Session.step store]. rewrite prune_lookup.
      destruct (MemoryCache.cache (store w) !! j) as [e0 |] eqn:E;
        [| discriminate].
      destruct (MemoryCache.expiration e0 <? MemoryCache.now (store w));
        [discriminate |].
      intros [= <-]. exact (Hw j e0 E).
Qed.

(** X8.  Whatever happens to an in-process cache after its creation, every
    value it holds is the digest of some token, hence a 32-character
    string: what a hit is compared against is always a digest, and the
    comparison is digest equality, never bcrypt. *)
Theorem session_values_are_digests (lib : Bcrypt)
  (opt_ttl opt_pruneTimer : option Z) (date_now : Z)
  (events : list Session.event) (key : string) (e : MemoryCache.entry) :
  MemoryCache.cache
    (store (Session.run lib events
              (World (MemoryCache.new opt_ttl opt_pruneTimer date_now) [])))
  !! key = Some e ->
  exists token,
    MemoryCache.value e = Str (md5 token) /\ digest_shaped (md5 token).
Proof.
  intros He.
  cut (exists token, MemoryCache.value e = Str (md5 token)).
  { intros [token Ht]. exists token. split; [exact Ht |].
    apply md5_digest_shaped. }
  revert He.
  assert (H : forall w, digest_values w ->
                        digest_values (Session.run lib events w)).
  { unfold Session.run.
    induction events as [| ev events IH]; intros w Hw; cbn [fold_left].
    - exact Hw.
    - apply IH. now apply step_keeps_digest_values. }
  apply H. intros k x Hx. cbn in Hx. now rewrite lookup_empty in Hx.
Qed.

Lemma session_values_are_digests_witness :
  exists token,
    MemoryCache.value (MemoryCache.Entry (Str (md5 Fixture.token)) 1000)
    = Str (md5 token) /\ digest_shaped (md5 token).
Proof.
  apply (session_values_are_digests Fixture.bcrypt_double (Some 1) (Some 10) 0
           [Session.Compare Fixture.tokenHash Fixture.token]
           (md5 Fixture.tokenHash)).
  vm_compute. reflexivity.
Defined.

Lemma step_keeps_within_lifetime lib w e :
  match e with Session.Tick ms => 0 <= ms | _ => True end ->
  within_lifetime w -> within_lifetime (Session.step lib w e).
Proof.
  intros Hforward. apply step_preserves.
  - intros key [m ws] Hw j e' He'.
    destruct (memory_get_clock key m ws) as (-> & -> & _).
    destruct (memory_get_entries key m ws j e' He') as [H | (e0 & H & ->)].
    + exact (Hw j e' H).
    + cbn. lia.
  - intros hash token [m ws] Hw j e'. rewrite memory_set_public. cbn.
    destruct (decide (md5 hash = j)) as [<- | Hne].
    + rewrite lookup_insert_eq. intros [= <-]. cbn. lia.
    + rewrite lookup_insert_ne by exact Hne. apply Hw.
  - intros key [m ws] Hw j e'. rewrite memory_remove_state. cbn.
    intros H. apply lookup_delete_Some in H as [_ H]. exact (Hw j e' H).
  - intros x w' Hw. exact Hw.
  - destruct e as [h | h t | h | h t | ms |]; try exact I.
    + intros Hw j e' H. cbn in *. specialize (Hw j e' H). lia.
    + intros Hw j e'. cbn [Session.step store]. rewrite prune_lookup.
      destruct (MemoryCache.cache (store w) !! j) as [e0 |] eqn:E;
        [| discriminate].
      destruct (MemoryCache.expiration e0 <? MemoryCache.now (store w));
        [discriminate |].
      intros [= <-]. exact (Hw j e0 E).
Qed.

(** X9.  As long as the clock does not run backwards, no entry of an
    in-process cache ever expires later than one lifetime from the present:
    neither a write nor a read grants more than the configured lifetime. *)
Theorem session_entries_within_lifetime (lib : Bcrypt)
  (opt_ttl opt_pruneTimer : option Z) (date_now : Z)
  (events : list Session.event) (key : string) (e : MemoryCache.entry)
  (Hforward : forward events) :
  MemoryCache.cache
    (store (Session.run lib events
              (World (MemoryCache.new opt_ttl opt_pruneTimer date_now) [])))
  !! key = Some e ->
  MemoryCache.expiration e
  <= MemoryCache.now
       (store (Session.run lib events
                 (World (MemoryCache.new opt_ttl opt_pruneTimer date_now) [])))
     + MemoryCache.ttl
         (store (Session.run lib events
                   (World (MemoryCache.new opt_ttl opt_pruneTimer date_now)
                      []))).
Proof.
  assert (H : forall w, within_lifetime w ->
                        within_lifetime (Session.run lib events w)).
  { unfold Session.run.
    induction Hforward as [| ev events Hev Hevents IH]; intros w Hw;
      cbn [fold_left].
    - exact Hw.
    - apply IH. now apply step_keeps_within_lifetime. }
  apply H. intros k x Hx. cbn in Hx. now rewrite lookup_empty in Hx.
Qed.

Lemma session_entries_within_lifetime_witness :
  MemoryCache.expiration (MemoryCache.Entry (Str (md5 Fixture.token)) 1900)
  <= 1400 + 1000.
Proof.
  apply (session_entries_within_lifetime Fixture.bcrypt_double
           (Some 1) (Some 10) 0
           [Session.Put (Some "key") (Some Fixture.token); Session.Tick 900;
            Session.Get "key"; Session.Tick 500]
           (md5 "key")).
  - repeat constructor; vm_compute; discriminate.
  - vm_compute. reflexivity.
Defined.

(** X10.  The in-process backend never fails and never warns: on a hash and
    a token that are present, [get] is fulfilled, [set] and [remove] are
    fulfilled with true, and neither they nor [compare] emit a warning or
    move the clock. *)
Theorem memory_never_fails (lib : Bcrypt) (hash token : string)
  (m : MemoryCache.t) (ws : list warning) :
  (exists v,
      fst (BcryptCache.get (MemoryCache.backend lib) hash (World m ws))
      = Fulfilled v)
  /\ fst (BcryptCache.set (MemoryCache.backend lib) (Some hash) (Some token)
            (World m ws))
     = Fulfilled (Bool true)
  /\ fst (BcryptCache.remove (MemoryCache.backend lib) hash (World m ws))
     = Fulfilled (Bool true)
  /\ (forall operation,
        In operation
          [BcryptCache.get (MemoryCache.backend lib) hash;
           BcryptCache.set (MemoryCache.backend lib) (Some hash) (Some token);
           BcryptCache.remove (MemoryCache.backend lib) hash;
           BcryptCache.compare (MemoryCache.backend lib) hash token] ->
        warnings (snd (operation (World m ws))) = ws
        /\ MemoryCache.now (store (snd (operation (World m ws))))
           = MemoryCache.now m).
Proof.
  assert (Hget : forall m0 ws0,
    (exists v,
        fst (BcryptCache.get (MemoryCache.backend lib) hash (World m0 ws0))
        = Fulfilled v)
    /\ warnings (snd (BcryptCache.get (MemoryCache.backend lib) hash
                        (World m0 ws0))) = ws0
    /\ MemoryCache.now
         (store (snd (BcryptCache.get (MemoryCache.backend lib) hash
                        (World m0 ws0))))
       = MemoryCache.now m0).
  { intros m0 ws0. split; [apply memory_get_fulfilled |].
    rewrite memory_get_public.
    destruct (memory_get_clock (md5 hash) m0 ws0) as (Hn & _ & Hw).
    now split. }
  destruct (Hget m ws) as (Hv & Hgw & Hgn).
  split; [exact Hv |].
  rewrite memory_set_public, memory_remove_public.
  split; [reflexivity |]. split; [reflexivity |].
  intros operation Hin. cbn [In] in Hin.
  destruct Hin as [<- | [<- | [<- | [<- | []]]]].
  - now split.
  - now rewrite memory_set_public.
  - now rewrite memory_remove_public.
  - destruct (memory_compare_world lib hash token (World m ws)) as [-> | ->].
    + now split.
    + destruct (BcryptCache.get (MemoryCache.backend lib) hash (World m ws))
        as [r [m1 ws1]]. cbn [snd warnings store] in *.
      rewrite memory_set_public. cbn. now split.
Qed.

(** *** The core *)

(** X11.  A hit is trusted.  When the lookup returns a truthy value,
    [compare] settles as the backend's comparison of the token against that
    cached value does; the original hash is not compared, and neither
    [_hash] nor [_set] runs: the state is the one the comparison left. *)
Theorem hit_is_trusted {St : Type} (self : BcryptCache.backend St)
  (hash token : string) (w w1 : world St) (cached : jsval)
  (Hget : BcryptCache._get self (md5 hash) w = (Fulfilled cached, w1))
  (Hfound : truthy cached = true) :
  BcryptCache.compare self hash token w
  = callback (BcryptCache._compare self cached token) w1.
Proof.
  apply (compare_hit self hash token w cached w1); [| exact Hfound].
  now apply get_hit.
Qed.

(** With a cheap hash of ["wrongtoken"] planted under the key of the
    test-suite's hash, the networked backend accepts ["wrongtoken"], which
    bcrypt would turn down against the hash itself. *)
Lemma hit_is_trusted_witness :
  native_compare Fixture.bcrypt_double "wrongtoken" (Str Fixture.tokenHash)
  = inr false
  /\ fst (BcryptCache.compare Fixture.redis_backend Fixture.tokenHash
            "wrongtoken"
            (World (Fixture.redis_holding (Str "$2a$04$wrongtoken") 1000 0)
               []))
     = Fulfilled (Bool true).
Proof.
  split; [vm_compute; reflexivity |].
  rewrite (hit_is_trusted Fixture.redis_backend Fixture.tokenHash
             "wrongtoken"
             (World (Fixture.redis_holding (Str "$2a$04$wrongtoken") 1000 0)
                [])
             (World (Fixture.redis_holding (Str "$2a$04$wrongtoken") 1000 0)
                [])
             (Str "$2a$04$wrongtoken")).
  - vm_compute. reflexivity.
  - vm_compute. reflexivity.
  - reflexivity.
Defined.

(** *** The networked backend under faults *)

(** X12.  A failed expiry refresh does not fail the lookup: when the read
    finds a value and the refresh command then fails, [_get] is still
    fulfilled with the value read and the failure is only reported, as one
    warning carrying its reason. *)
Theorem redis_refresh_failure_is_only_logged {C : Type}
  (cl : RedisCache.client C) (key : string) (r : RedisCache.t C)
  (ws : list warning) (found : jsval) (c1 c2 : C) (err : exn)
  (Hreply : RedisCache.getAsync cl (RedisCache.prefix r +:+ key)
              (RedisCache.conn r) = (inr found, c1))
  (Hfound : truthy found = true)
  (Hrefresh : RedisCache.expireAsync cl (RedisCache.prefix r +:+ key)
                (RedisCache.ttl r) c1 = (inl err, c2)) :
  RedisCache._get cl key (World r ws)
  = (Fulfilled found,
     World (RedisCache.Make (RedisCache.ttl r) (RedisCache.prefix r) c2)
       (ws ++ [WarnText "Error setting expiration" err])).
Proof.
  unfold RedisCache._get, tap, then_, timeout, yield_, then_, catch_,
    callback, resolve, RedisCache.command.
  cbn [store warnings]. rewrite Hreply.
  cbn [RedisCache.prefix RedisCache.ttl RedisCache.conn store warnings].
  rewrite Hfound.
  cbn [RedisCache.prefix RedisCache.ttl RedisCache.conn store warnings].
  rewrite Hrefresh. reflexivity.
Qed.

Lemma redis_refresh_failure_is_only_logged_witness :
  RedisCache._get Faults.no_expire (md5 Fixture.tokenHash)
    (World (Fixture.redis_holding (Str "$2a$04$token") 1000 900) [])
  = (Fulfilled (Str "$2a$04$token"),
     World (Fixture.redis_holding (Str "$2a$04$token") 1000 900)
       [WarnText "Error setting expiration" Fixture.closed]).
Proof.
  apply (redis_refresh_failure_is_only_logged Faults.no_expire
           (md5 Fixture.tokenHash)
           (Fixture.redis_holding (Str "$2a$04$token") 1000 900) []
           (Str "$2a$04$token")
           (RedisCache.conn
              (Fixture.redis_holding (Str "$2a$04$token") 1000 900))
           (RedisCache.conn
              (Fixture.redis_holding (Str "$2a$04$token") 1000 900))
           Fixture.closed).
  - vm_compute. reflexivity.
  - reflexivity.
  - reflexivity.
Defined.

(** X13.  A lookup that finds nothing sends nothing more.  When the read is
    answered with a falsy value, or fails, [_get] hands that answer on as it
    is (fulfilled with the value, rejected with the reason), sends no
    expiry refresh and emits no warning. *)
Theorem redis_miss_sends_only_the_read {C : Type}
  (cl : RedisCache.client C) (key : string) (r : RedisCache.t C)
  (ws : list warning) (reply : exn + jsval) (c1 : C)
  (Hreply : RedisCache.getAsync cl (RedisCache.prefix r +:+ key)
              (RedisCache.conn r) = (reply, c1))
  (Hnothing : match reply with
              | inr found => truthy found = false
              | inl _ => True
              end) :
  RedisCache._get cl key (World r ws)
  = (match reply with
     | inr found => Fulfilled found
     | inl err => Rejected err
     end,
     World (RedisCache.Make (RedisCache.ttl r) (RedisCache.prefix r) c1) ws).
Proof.
  unfold RedisCache._get, tap, then_, timeout, yield_, then_, catch_,
    callback, resolve, RedisCache.command.
  cbn [store warnings]. rewrite Hreply.
  destruct reply as [err | found]; [reflexivity |]. now rewrite Hnothing.
Qed.

Lemma redis_miss_sends_only_the_read_witness :
  RedisCache._get Fixture.fake_client (md5 Fixture.tokenHash)
    (Fixture.fresh_redis true)
  = (Fulfilled Null, Fixture.fresh_redis true)
  /\ RedisCache._get Fixture.fake_client (md5 Fixture.tokenHash)
       (Fixture.fresh_redis false)
     = (Rejected Fixture.closed, Fixture.fresh_redis false).
Proof.
  split.
  - apply (redis_miss_sends_only_the_read Fixture.fake_client
             (md5 Fixture.tokenHash) (store (Fixture.fresh_redis true)) []
             (inr Null) (RedisCache.conn (store (Fixture.fresh_redis true))));
      reflexivity.
  - apply (redis_miss_sends_only_the_read Fixture.fake_client
             (md5 Fixture.tokenHash) (store (Fixture.fresh_redis false)) []
             (inl Fixture.closed)
             (RedisCache.conn (store (Fixture.fresh_redis false))));
      [reflexivity | exact I].
Defined.

(** X14.  What [set] sends to the store.  Over the networked backend, when
    bcrypt hashes the token at cost 4 to [cheap], [set] sends one
    set-with-expiry command: the key is the prefix followed by the digest of
    the hash, the lifetime is the configured one, the value is [cheap].  The
    answer is the truthiness of the reply, and no warning is emitted. *)
Theorem redis_set_sends_cheap_hash {C : Type} (cl : RedisCache.client C)
  (lib : Bcrypt) (hash token cheap : string) (r : RedisCache.t C)
  (ws : list warning) (reply : jsval) (c1 : C)
  (Hhash : native_hash lib token 4 = inr cheap)
  (Hreply : RedisCache.setexAsync cl (RedisCache.prefix r +:+ md5 hash)
              (RedisCache.ttl r) (Str cheap) (RedisCache.conn r)
            = (inr reply, c1)) :
  BcryptCache.set (RedisCache.backend cl lib) (Some hash) (Some token)
    (World r ws)
  = (Fulfilled (Bool (truthy reply)),
     World (RedisCache.Make (RedisCache.ttl r) (RedisCache.prefix r) c1) ws).
Proof.
  apply (set_stored _ hash token (World r ws) (Str cheap) (World r ws)).
  - cbn. unfold BcryptCache.prototype._hash, bcrypt.hash, bcrypt.lift.
    now rewrite Hhash.
  - cbn [BcryptCache._set RedisCache.backend].
    unfold RedisCache._set, then_, timeout, callback, resolve,
      RedisCache.command.
    cbn [store warnings]. now rewrite Hreply.
Qed.

Lemma redis_set_sends_cheap_hash_witness :
  BcryptCache.set Fixture.redis_backend (Some Fixture.tokenHash)
    (Some Fixture.token) (Fixture.fresh_redis true)
  = (Fulfilled (Bool true),
     World (Fixture.redis_holding (Str "$2a$04$token") 1000 0) []).
Proof.
  apply (redis_set_sends_cheap_hash Fixture.fake_client Fixture.bcrypt_double
           Fixture.tokenHash Fixture.token "$2a$04$token"
           (store (Fixture.fresh_redis true)) [] (Str "OK")).
  - reflexivity.
  - vm_compute. reflexivity.
Defined.

(** X15.  When bcrypt fails to hash the token, [set] over the networked
    backend sends nothing to the store: the connection is left as it was,
    the failure is reported as one warning, and the promise is fulfilled
    with [undefined]. *)
Theorem redis_set_sends_nothing_unhashed {C : Type}
  (cl : RedisCache.client C) (lib : Bcrypt) (hash token : string)
  (r : RedisCache.t C) (ws : list warning) (err : exn)
  (Hhash : native_hash lib token 4 = inl err) :
  BcryptCache.set (RedisCache.backend cl lib) (Some hash) (Some token)
    (World r ws)
  = (Fulfilled Undefined,
     World r (ws ++ [Warn (Error "Failed add hash to the cache") (Some err)])).
Proof.
  apply (set_failed _ hash token (World r ws) err (World r ws)).
  left. cbn. unfold BcryptCache.prototype._hash, bcrypt.hash, bcrypt.lift.
  now rewrite Hhash.
Qed.

Lemma redis_set_sends_nothing_unhashed_witness :
  BcryptCache.set (RedisCache.backend Fixture.fake_client Faults.no_hash)
    (Some Fixture.tokenHash) (Some Fixture.token) (Fixture.fresh_redis true)
  = (Fulfilled Undefined,
     World (store (Fixture.fresh_redis true))
       [Warn (Error "Failed add hash to the cache")
          (Some (Error "Illegal arguments"))]).
Proof.
  apply (redis_set_sends_nothing_unhashed Fixture.fake_client Faults.no_hash
           Fixture.tokenHash Fixture.token (store (Fixture.fresh_redis true))
           [] (Error "Illegal arguments")).
  reflexivity.
Defined.
